(** * dbus_objects: member descriptors and the exposed-object registry

    A shallow embedding of [dbus_objects/__init__.py]: the three member
    descriptors ([_DBusMethod], [_DBusProperty], [_DBusSignal]), their
    common base classes, and [DBusObject].  Python objects that are mutated
    through several references (descriptors, instances, generator frames)
    live in a store and are named by locations; exceptions are results. *)

From stdpp Require Import base strings list gmap functions.

Local Open Scope string_scope.
#[local] Set Warnings "-register-all".

(** ** Python values, exceptions and outcomes *)

(** The exception classes the module raises or lets through.  All of them
    derive from [Exception]; [Exception_] stands for whatever user code or a
    transport callback raises.  [RuntimeError msg cause] is the error the
    interpreter raises itself, [cause] being its [__cause__]. *)
Inductive PyExc : Type :=
  | ValueError (msg : string)
  | AttributeError (msg : string)
  | NameError (msg : string)
  | NotImplementedError (msg : string)
  | AssertionError
  | DBusObjectException (msg : string)
  | Exception_ (msg : string)
  | RuntimeError (msg : string) (cause : PyExc).

Inductive Result (A : Type) : Type :=
  | Ok (a : A)
  | Raise (e : PyExc).
Arguments Ok {A} a.
Arguments Raise {A} e.

(** Plain data passed to and returned from exposed members. *)
Inductive Val : Type :=
  | VNone
  | VBool (b : bool)
  | VInt (n : Z)
  | VStr (s : string)
  | VTuple (vs : list Val).

(** Type annotations, as far as the signature resolver distinguishes them. *)
Inductive PyType : Type :=
  | TNoneType
  | TBool
  | TInt
  | TFloat
  | TStr
  | TBytes
  | TList (elem : PyType)
  | TDict (key value : PyType)
  | TTuple (slots : list PyType)
  | TClass (qualname : string).

Definition loc := nat.

(** [not x] for [x : Optional[str]]: [None] and the empty string are falsy. *)
Definition truthy (x : option string) : bool :=
  match x with
  | Some s => if decide (s = "") then false else true
  | None => false
  end.

(** [x or []] for an optional list. *)
Definition or_empty {A} (x : option (list A)) : list A :=
  match x with
  | Some l => l
  | None => []
  end.

(** Truth value of a tuple, list or dictionary: empty is falsy. *)
Definition is_nonempty {A} (l : list A) : bool :=
  match l with
  | [] => false
  | _ :: _ => true
  end.

(** [not l] for an optional list: [None] and [[]] are falsy. *)
Definition nonempty {A} (x : option (list A)) : bool :=
  match x with
  | Some (_ :: _) => true
  | _ => false
  end.

(** [itertools.zip_longest], filling the shorter side with [None]. *)
Fixpoint zip_longest {A B} (xs : list A) (ys : list B) : list (option A * option B) :=
  match xs with
  | [] => (λ y, (None, Some y)) <$> ys
  | x :: xs' =>
      match ys with
      | [] => (Some x, None) :: zip_longest xs' []
      | y :: ys' => (Some x, Some y) :: zip_longest xs' ys'
      end
  end.

(** ** Object layouts *)

(** Modelled from the spec: the class [DBusSignature] is defined in
    [dbus_objects/signature.py], which is not among the sources.  The spec
    describes a signature as an ordered sequence of types with an optional
    parallel sequence of argument names; the constructor
    ([DBusSignature_new] below) stores both once every type has a code. *)
Record DBusSignature : Type := {
  sig_types : list PyType;
  names : option (list string);
}.

(** Modelled from the spec: the invariant the spec states for signatures
    (names, when supplied, are as many as the types). *)
Definition signature_wf (s : DBusSignature) : Prop :=
  match names s with
  | Some ns => length ns = length (sig_types s)
  | None => True
  end.

(** Modelled from the spec: truth value of a signature object.  The spec's
    contract for [xml] is that it fails only when signatures were never
    resolved, so a constructed signature object counts as true. *)
Definition signature_bool (s : DBusSignature) : bool := true.

(** Attributes set by [_DBusDescriptorBase.__init__] and [__set_name__].
    [_owner] holds the owning class by name; the attributes of
    [__set_name__] do not exist ([None]) before it ran. *)
Record descriptor_base : Type := {
  _interface_orig : option string;
  _interface : option string;
  _name : option string;
  _list_name : option string;
  _owner : option string;
  _descriptor_name : option string;
}.

Record dbus_signal : Type := {
  signal_base : descriptor_base;
  _signature : DBusSignature;
}.

(** A transport-side emission callback: it receives the signal descriptor
    and the body and acts on the attributes of the server object. *)
Definition emit_callback : Type :=
  dbus_signal → list Val → gmap string Val → gmap string Val * option PyExc.

(** The server's [emit_signal_callback] additionally takes the path. *)
Definition server_emit : Type :=
  dbus_signal → list Val → string → gmap string Val → gmap string Val * option PyExc.

(** [functools.partial(f, path=path)]. *)
Definition functools_partial (f : server_emit) (path : string) : emit_callback :=
  fun signal body => f signal body path.

Record DBusServerBase : Type := {
  server_class_name : string;
  emit_signal_callback_attr : option server_emit;
}.

(** A reference to a member descriptor, by the class of the descriptor. *)
Inductive member_ref : Type :=
  | MethodRef (l : loc)
  | PropertyRef (l : loc)
  | SignalRef (l : loc).

(** A class namespace as far as the module reads it: the member descriptors
    bound in the class body and the three per-type member lists. *)
Record py_class : Type := {
  cls_name : string;
  cls_is_DBusObject : bool;
  cls_dict : gmap string member_ref;
  _dbus_methods : option (list (string * loc));
  _dbus_properties : option (list (string * loc));
  _dbus_signals : option (list (string * loc));
}.

(** An instance of (a subclass of) [DBusObject]. *)
Record dbus_object : Type := {
  ob_type : py_class;
  ob_dict : gmap string Val;
  is_dbus_object : bool;
  _emit_signal_callbacks : list emit_callback;
  _dbus_name : string;
  default_interface_root : option string;
}.

(** A user function.  [__code__] receives the first argument ([self],
    possibly [None]) and the remaining arguments; it returns the instance
    as the call leaves it ([None]: untouched) and returns a value or raises.
    [parameters] are the parameters after [self] with their annotations,
    [return_annotation] the annotation of the result, if any. *)
Record PyFunction : Type := {
  __name__ : string;
  parameters : list (string * option PyType);
  return_annotation : option PyType;
  __code__ : option dbus_object → list Val → option dbus_object * Result Val;
}.

Record method_base : Type := {
  base : descriptor_base;
  _func : PyFunction;
  _return_names : list string;
  _multiple_returns : bool;
  _input_signature : DBusSignature;
  _output_signature : DBusSignature;
}.

Record dbus_property : Type := {
  property_base : method_base;
  _setter : option PyFunction;
}.


(** [xml.etree.ElementTree.Element]: tag, attributes in insertion order,
    children.  An attribute value is [None] where the source stores [None]. *)
Inductive Element : Type :=
  | ET_Element (tag : string) (attrib : list (string * option string))
               (children : list Element).

Definition tag (e : Element) : string :=
  match e with ET_Element t _ _ => t end.
Definition attrib (e : Element) : list (string * option string) :=
  match e with ET_Element _ a _ => a end.
Definition children (e : Element) : list Element :=
  match e with ET_Element _ _ c => c end.

(** [ET.SubElement(parent, tag, attrib)] appends a child. *)
Definition ET_SubElement (parent : Element) (t : string)
    (a : list (string * option string)) : Element :=
  ET_Element (tag parent) (attrib parent) (children parent ++ [ET_Element t a []]).

(** [e.get(key)]. *)
Fixpoint assoc_get {V} (key : string) (kvs : list (string * V)) : option V :=
  match kvs with
  | [] => None
  | (k, v) :: rest => if decide (k = key) then Some v else assoc_get key rest
  end.
Definition Element_get (e : Element) (key : string) : option (option string) :=
  assoc_get key (attrib e).

(** ** The interface of [dbus_objects.signature]

    The module is used by the code below but is not among the sources; its
    functions are parameters of the development. *)
Class signature_module : Type := {
  dbus_case : string → string;
  (** the DBus type code of one slot, as iterating a signature yields it *)
  type_signature : PyType → Result string;
  from_parameters : PyFunction → Result DBusSignature;
  from_return : PyFunction → list string → bool → Result DBusSignature;
}.

(** ** The store and the monad of effects *)

(** A record of [logging.Logger.info]: the message of [emit_signal] is the
    f-string ['An exception ocurred when try to emit signal {name} {args}: {e}'],
    kept here as its three interpolated parts. *)
Record LogRecord : Type := {
  logger_name : string;
  levelname : string;
  log_signal_name : string;
  log_args : list Val;
  log_exc : PyExc;
}.

Inductive gen_status : Type :=
  | GEN_CREATED
  | GEN_SUSPENDED
  | GEN_CLOSED.

(** The frame of one [get_dbus_properties] generator.  Its local variables
    [property_name] and [descriptor] are the cells the yielded lambdas
    close over; they are unbound ([None]) before the first iteration. *)
Record properties_frame : Type := {
  f_self : loc;
  f_iter : list (string * loc);
  property_name : option string;
  descriptor : option loc;
  f_status : gen_status;
}.

Record State : Type := {
  methods : loc → method_base;
  properties : loc → dbus_property;
  signals : loc → dbus_signal;
  objects : loc → dbus_object;
  frames : loc → properties_frame;
  next_frame : loc;
  server_dict : gmap string Val;
  warnings : list string;
  log_records : list LogRecord;
}.

Definition set_method (l : loc) (m : method_base) (st : State) : State :=
  {| methods := <[l:=m]> (methods st);
     properties := properties st;
     signals := signals st;
     objects := objects st;
     frames := frames st;
     next_frame := next_frame st;
     server_dict := server_dict st;
     warnings := warnings st;
     log_records := log_records st |}.

Definition set_property (l : loc) (p : dbus_property) (st : State) : State :=
  {| methods := methods st;
     properties := <[l:=p]> (properties st);
     signals := signals st;
     objects := objects st;
     frames := frames st;
     next_frame := next_frame st;
     server_dict := server_dict st;
     warnings := warnings st;
     log_records := log_records st |}.

Definition set_signal (l : loc) (s : dbus_signal) (st : State) : State :=
  {| methods := methods st;
     properties := properties st;
     signals := <[l:=s]> (signals st);
     objects := objects st;
     frames := frames st;
     next_frame := next_frame st;
     server_dict := server_dict st;
     warnings := warnings st;
     log_records := log_records st |}.

Definition set_object (l : loc) (o : dbus_object) (st : State) : State :=
  {| methods := methods st;
     properties := properties st;
     signals := signals st;
     objects := <[l:=o]> (objects st);
     frames := frames st;
     next_frame := next_frame st;
     server_dict := server_dict st;
     warnings := warnings st;
     log_records := log_records st |}.

Definition set_frame (l : loc) (f : properties_frame) (st : State) : State :=
  {| methods := methods st;
     properties := properties st;
     signals := signals st;
     objects := objects st;
     frames := <[l:=f]> (frames st);
     next_frame := next_frame st;
     server_dict := server_dict st;
     warnings := warnings st;
     log_records := log_records st |}.

Definition alloc_frame (f : properties_frame) (st : State) : State :=
  {| methods := methods st;
     properties := properties st;
     signals := signals st;
     objects := objects st;
     frames := <[next_frame st:=f]> (frames st);
     next_frame := S (next_frame st);
     server_dict := server_dict st;
     warnings := warnings st;
     log_records := log_records st |}.

Definition set_server_dict (d : gmap string Val) (st : State) : State :=
  {| methods := methods st;
     properties := properties st;
     signals := signals st;
     objects := objects st;
     frames := frames st;
     next_frame := next_frame st;
     server_dict := d;
     warnings := warnings st;
     log_records := log_records st |}.

Definition add_warning (w : string) (st : State) : State :=
  {| methods := methods st;
     properties := properties st;
     signals := signals st;
     objects := objects st;
     frames := frames st;
     next_frame := next_frame st;
     server_dict := server_dict st;
     warnings := warnings st ++ [w];
     log_records := log_records st |}.

Definition add_log (r : LogRecord) (st : State) : State :=
  {| methods := methods st;
     properties := properties st;
     signals := signals st;
     objects := objects st;
     frames := frames st;
     next_frame := next_frame st;
     server_dict := server_dict st;
     warnings := warnings st;
     log_records := log_records st ++ [r] |}.

(** A computation returns or raises, and leaves a store either way. *)
Definition M (A : Type) : Type := State → Result A * State.

Definition ret {A} (a : A) : M A := λ st, (Ok a, st).
Definition raise {A} (e : PyExc) : M A := λ st, (Raise e, st).
Definition lift {A} (r : Result A) : M A := λ st, (r, st).
Definition bind {A B} (m : M A) (k : A → M B) : M B :=
  λ st, match m st with
        | (Ok a, st') => k a st'
        | (Raise e, st') => (Raise e, st')
        end.
Definition gets {A} (f : State → A) : M A := λ st, (Ok (f st), st).
Definition modify (f : State → State) : M unit := λ st, (Ok tt, f st).

(** [try: m except Exception as e: h e]. *)
Definition try_except {A} (m : M A) (h : PyExc → M A) : M A :=
  λ st, match m st with
        | (Ok a, st') => (Ok a, st')
        | (Raise e, st') => h e st'
        end.

Notation "'let!' x ':=' m 'in' k" := (bind m (λ x, k))
  (at level 10, x pattern, m at level 100, k at level 200).
Notation "m ';;;' k" := (bind m (λ _, k))
  (at level 100, k at level 200, right associativity).

Definition bind_result {A B} (r : Result A) (k : A → Result B) : Result B :=
  match r with
  | Ok a => k a
  | Raise e => Raise e
  end.

(** [for x in xs: body x]. *)
Fixpoint for_each {A} (xs : list A) (body : A → M unit) : M unit :=
  match xs with
  | [] => ret tt
  | x :: rest => body x ;;; for_each rest body
  end.

(** What [__get__] and [getattr] hand back. *)
Inductive PyObj : Type :=
  | Value (v : Val)
  | Function (f : PyFunction)
  (** [types.MethodType(f, obj)] *)
  | MethodType (f : PyFunction) (obj : loc)
  (** the closure [emit_signal] of signal [self] over [owner] *)
  | emit_signal_closure (self : loc) (owner : option loc)
  (** the two lambdas of [get_dbus_properties], closing over a frame *)
  | getter_lambda (frame : loc)
  | setter_lambda (frame : loc).

(** ** class _DBusDescriptorBase *)
Module _DBusDescriptorBase.
Section methods.
Context `{signature_module}.

Definition __init__ (interface name : option string) : descriptor_base :=
  {| _interface_orig := interface;
     _interface := interface;
     _name := if truthy name then dbus_case <$> name else None;
     _list_name := None;
     _owner := None;
     _descriptor_name := None |}.

Definition interface (self : descriptor_base) : Result string :=
  match _interface self with
  | Some i => if truthy (Some i) then Ok i
              else Raise (ValueError "Interface hasn't been set yet")
  | None => Raise (ValueError "Interface hasn't been set yet")
  end.

Definition name (self : descriptor_base) : Result string :=
  match _name self with
  | Some n => if truthy (Some n) then Ok n
              else Raise (ValueError "Name hasn't been set yet")
  | None => Raise (ValueError "Name hasn't been set yet")
  end.

Definition set_interface (i : option string) (self : descriptor_base) : descriptor_base :=
  {| _interface_orig := _interface_orig self;
     _interface := i;
     _name := _name self;
     _list_name := _list_name self;
     _owner := _owner self;
     _descriptor_name := _descriptor_name self |}.

(** Returns the descriptor as the call leaves it; the f-string of the
    error message reads [self.name], which can itself raise. *)
Definition register_interface (self : descriptor_base) (obj : dbus_object)
    : Result descriptor_base :=
  if truthy (_interface_orig self) then Ok self
  else
    match default_interface_root obj with
    | Some root =>
        if truthy (Some root)
        then Ok (set_interface (Some (root ++ "." ++ _dbus_name obj)) self)
        else bind_result (name self) (λ n,
               Raise (DBusObjectException ("Missing interface in DBus method: " ++ n)))
    | None =>
        bind_result (name self) (λ n,
          Raise (DBusObjectException ("Missing interface in DBus method: " ++ n)))
    end.

(** [getattr(owner, list_name)] for the three member lists. *)
Definition get_member_list (owner : py_class) (list_name : string)
    : Result (option (list (string * loc))) :=
  if decide (list_name = "_dbus_methods") then Ok (_dbus_methods owner)
  else if decide (list_name = "_dbus_properties") then Ok (_dbus_properties owner)
  else if decide (list_name = "_dbus_signals") then Ok (_dbus_signals owner)
  else Raise (AttributeError
                ("type object '" ++ cls_name owner ++ "' has no attribute '"
                 ++ list_name ++ "'")).

(** [setattr(owner, list_name, l)]. *)
Definition set_member_list (owner : py_class) (list_name : string)
    (l : list (string * loc)) : py_class :=
  {| cls_name := cls_name owner;
     cls_is_DBusObject := cls_is_DBusObject owner;
     cls_dict := cls_dict owner;
     _dbus_methods :=
       if decide (list_name = "_dbus_methods") then Some l else _dbus_methods owner;
     _dbus_properties :=
       if decide (list_name = "_dbus_properties") then Some l else _dbus_properties owner;
     _dbus_signals :=
       if decide (list_name = "_dbus_signals") then Some l else _dbus_signals owner |}.

Definition set_owner (owner descriptor_name : string) (self : descriptor_base)
    : descriptor_base :=
  {| _interface_orig := _interface_orig self;
     _interface := _interface self;
     _name := _name self;
     _list_name := _list_name self;
     _owner := Some owner;
     _descriptor_name := Some descriptor_name |}.

(** [__set_name__] of the descriptor stored at [self_ref], whose class is
    named [class_name].  Returns the descriptor as the call leaves it and
    the owner with the member appended to its list. *)
Definition __set_name__ (class_name : string) (self_ref : loc)
    (self : descriptor_base) (obj_type : py_class) (name : string)
    : descriptor_base * Result py_class :=
  if negb (cls_is_DBusObject obj_type)
  then (self, Raise (DBusObjectException
          ("The " ++ class_name ++ " decorator can only be used inside DBusObject")))
  else
    let self' := set_owner (cls_name obj_type) name self in
    match _list_name self' with
    | Some list_name =>
        if truthy (Some list_name) then
          (self',
           bind_result (get_member_list obj_type list_name) (λ l,
             Ok (set_member_list obj_type list_name
                   (or_empty l ++ [(name, self_ref)]))))
        else (self', Raise AssertionError)
    | None => (self', Raise AssertionError)
    end.

Definition __get__ (self : descriptor_base) (obj : option loc) : Result PyObj :=
  Raise (NotImplementedError "This should be implemented in a subclass").

End methods.
End _DBusDescriptorBase.

(** ** Signatures as the descriptors consume them *)
Section signature_views.
Context `{signature_module}.

Fixpoint map_result {A B} (f : A → Result B) (xs : list A) : Result (list B) :=
  match xs with
  | [] => Ok []
  | x :: rest =>
      bind_result (f x) (λ y,
        bind_result (map_result f rest) (λ ys, Ok (y :: ys)))
  end.

(** Modelled from the spec: [list(signature)], one DBus type code per
    slot, in order ([DBusSignature.__iter__] is not among the sources). *)
Definition signature_list (s : DBusSignature) : Result (list string) :=
  map_result type_signature (sig_types s).

(** Modelled from the spec: [str(signature)], the wire-format string; it
    ignores the names and concatenates the type codes in order. *)
Definition signature_str (s : DBusSignature) : Result string :=
  bind_result (signature_list s) (λ codes, Ok (foldr String.append "" codes)).

(** Modelled from the spec: the call [DBusSignature(types, names)]
    ([DBusSignature.__init__] is not among the sources).  The type codes
    are resolved once, when the signature is built: a type without a code
    makes the constructor raise the resolver's error, and the declaration
    fails with it. *)
Definition DBusSignature_new (types : list PyType) (names : option (list string))
    : Result DBusSignature :=
  bind_result (map_result type_signature types) (λ _,
    Ok {| sig_types := types; names := names |}).
End signature_views.

Definition set_list_name (list_name : string) (self : descriptor_base) : descriptor_base :=
  {| _interface_orig := _interface_orig self;
     _interface := _interface self;
     _name := _name self;
     _list_name := Some list_name;
     _owner := _owner self;
     _descriptor_name := _descriptor_name self |}.

Definition set_base (b : descriptor_base) (self : method_base) : method_base :=
  {| base := b;
     _func := _func self;
     _return_names := _return_names self;
     _multiple_returns := _multiple_returns self;
     _input_signature := _input_signature self;
     _output_signature := _output_signature self |}.

(** ** class _DBusMethodBase(_DBusDescriptorBase) *)
Module _DBusMethodBase.
Section methods.
Context `{signature_module}.

Definition __init__ (func : PyFunction) (interface name : option string)
    (return_names : option (list string)) (multiple_returns : bool)
    : Result method_base :=
  let b := _DBusDescriptorBase.__init__ interface
             (if truthy name then name else Some (__name__ func)) in
  let rn := or_empty return_names in
  bind_result (from_parameters func) (λ input,
    bind_result (from_return func rn multiple_returns) (λ output,
      Ok {| base := b;
            _func := func;
            _return_names := rn;
            _multiple_returns := multiple_returns;
            _input_signature := input;
            _output_signature := output |})).

(** [obj] is [None] for access through the type, else the instance (its
    reference and its current attributes).  Returns the descriptor as
    the call leaves it together with the object handed back. *)
Definition __get__ (self : method_base) (obj : option (loc * dbus_object))
    : Result (method_base * PyObj) :=
  match obj with
  | None => Ok (self, Function (_func self))
  | Some (ref, o) =>
      bind_result (_DBusDescriptorBase.register_interface (base self) o) (λ b,
        Ok (set_base b self, MethodType (_func self) ref))
  end.

End methods.
End _DBusMethodBase.

(** One [<arg>] per pair of [zip_longest(names, signature)]; [direction]
    is absent for signals. *)
Definition arg_data (direction : option string) (pair : option string * option string)
    : list (string * option string) :=
  let data :=
    match direction with
    | Some d => [("direction", Some d); ("type", pair.2)]
    | None => [("type", pair.2)]
    end in
  if truthy pair.1 then data ++ [("name", pair.1)] else data.

Definition add_args (direction : option string) (names : list string)
    (signature : list string) (xml : Element) : Element :=
  foldl (λ e pair, ET_SubElement e "arg" (arg_data direction pair))
        xml (zip_longest names signature).

(** ** class _DBusMethod(_DBusMethodBase) *)
Module _DBusMethod.
Section methods.
Context `{signature_module}.

Definition __init__ (func : PyFunction) (interface name : option string)
    (return_names : option (list string)) (multiple_returns : bool)
    : Result method_base :=
  bind_result
    (_DBusMethodBase.__init__ func interface name return_names multiple_returns)
    (λ self, Ok (set_base (set_list_name "_dbus_methods" (base self)) self)).

Definition signature (self : method_base) : Result (string * string) :=
  bind_result (signature_str (_input_signature self)) (λ i,
    bind_result (signature_str (_output_signature self)) (λ o, Ok (i, o))).

Definition xml (self : method_base) : Result Element :=
  if negb (signature_bool (_input_signature self))
     || negb (signature_bool (_output_signature self))
  then Raise (ValueError "Signature hasn't been set yet")
  else
    bind_result (_DBusDescriptorBase.name (base self)) (λ n,
      let xml := ET_Element "method" [("name", Some n)] [] in
      bind_result (signature_list (_input_signature self)) (λ input,
        bind_result (signature_list (_output_signature self)) (λ output,
          let xml := add_args (Some "in") (or_empty (names (_input_signature self)))
                       input xml in
          let xml := add_args (Some "out") (or_empty (names (_output_signature self)))
                       output xml in
          Ok xml))).

End methods.
End _DBusMethod.

(** ** class _DBusProperty(_DBusMethodBase) *)
Module _DBusProperty.
Section methods.
Context `{signature_module}.

Definition __init__ (func : PyFunction) (interface name : option string)
    (return_names : option (list string)) (multiple_returns : bool)
    : Result dbus_property :=
  bind_result
    (_DBusMethodBase.__init__ func interface name return_names multiple_returns)
    (λ self,
      Ok {| property_base := set_base (set_list_name "_dbus_properties" (base self)) self;
            _setter := None |}).

Definition signature (self : dbus_property) : Result string :=
  signature_str (_output_signature (property_base self)).

Definition xml (self : dbus_property) : Result Element :=
  if negb (signature_bool (_input_signature (property_base self)))
     || negb (signature_bool (_output_signature (property_base self)))
  then Raise (ValueError "Signature hasn't been set yet")
  else
    bind_result (_DBusDescriptorBase.name (base (property_base self))) (λ n,
      bind_result (signature self) (λ sig,
        Ok (ET_Element "property"
              [("name", Some n);
               ("type", Some sig);
               ("access", Some (match _setter self with
                                | None => "read"
                                | Some _ => "readwrite"
                                end))]
              []))).

(** Both branches of the source call the function on [obj]. *)
Definition __get__ (self : dbus_property) (obj : option dbus_object)
    : option dbus_object * Result Val :=
  match obj with
  | None => __code__ (_func (property_base self)) None []
  | Some o => __code__ (_func (property_base self)) (Some o) []
  end.

(** Returns the instance as the call leaves it ([None]: untouched). *)
Definition __set__ (self : dbus_property) (obj : dbus_object) (value : Val)
    : option dbus_object * Result unit :=
  match _setter self with
  | None =>
      (None,
       match _descriptor_name (base (property_base self)) with
       | Some n => Raise (AttributeError (n ++ " has no setter"))
       | None => Raise (AttributeError
                   "'_DBusProperty' object has no attribute '_descriptor_name'")
       end)
  | Some f =>
      let '(obj', r) := __code__ f (Some obj) [value] in
      (obj', bind_result r (λ _, Ok tt))
  end.

(** [setter] stores the function and returns the descriptor itself. *)
Definition setter (self : dbus_property) (value : PyFunction) : dbus_property :=
  {| property_base := property_base self; _setter := Some value |}.

End methods.
End _DBusProperty.

(** ** class _DBusSignal(_DBusDescriptorBase) *)
Module _DBusSignal.
Section methods.
Context `{signature_module}.

(** [named_types] is the keyword dictionary, in insertion order.  The
    check of the two shapes comes first; the signature is then built by
    [DBusSignature(...)], whose error, if it raises, leaves [__init__]. *)
Definition __init__ (types : list PyType) (named_types : list (string * PyType))
    (interface name : option string) : Result dbus_signal :=
  let b := set_list_name "_dbus_signals" (_DBusDescriptorBase.__init__ interface name) in
  if is_nonempty types && is_nonempty named_types then
    Raise (ValueError
      ("_DBusSignal receives either positional "
       ++ "arguments or keyword arguments as the signal types, "
       ++ "but not both."))
  else if is_nonempty named_types then
    bind_result (DBusSignature_new named_types.*2 (Some named_types.*1)) (λ sig,
      Ok {| signal_base := b; _signature := sig |})
  else
    bind_result (DBusSignature_new types None) (λ sig,
      Ok {| signal_base := b; _signature := sig |}).

Definition signature (self : dbus_signal) : Result string :=
  signature_str (_signature self).

Definition xml (self : dbus_signal) : Result Element :=
  bind_result (_DBusDescriptorBase.name (signal_base self)) (λ n,
    let xml := ET_Element "signal" [("name", Some n)] [] in
    bind_result (signature_list (_signature self)) (λ sig,
      Ok (add_args None (or_empty (names (_signature self))) sig xml))).

(** [self.__logger.info(...)] of [emit_signal]. *)
Definition emit_failure (n : string) (args : list Val) (e : PyExc) : LogRecord :=
  {| logger_name := "_DBusSignal";
     levelname := "INFO";
     log_signal_name := n;
     log_args := args;
     log_exc := e |}.

(** One call [callback(self, body=args)] against the server's attributes. *)
Definition call_callback (callback : emit_callback) (self : loc) (args : list Val)
    : M unit :=
  λ st,
    let '(d, r) := callback (signals st self) args (server_dict st) in
    (match r with
     | None => Ok tt
     | Some e => Raise e
     end, set_server_dict d st).

(** The closure [emit_signal] returned by [emit_signal_callback(owner)],
    applied to [args]. *)
Definition emit_signal (self : loc) (owner : option loc) (args : list Val) : M unit :=
  match owner with
  | None =>
      raise (AttributeError
               "'NoneType' object has no attribute '_emit_signal_callbacks'")
  | Some o =>
      let! callbacks := gets (λ st, _emit_signal_callbacks (objects st o)) in
      for_each callbacks (λ callback,
        try_except (call_callback callback self args)
          (λ e,
            let! s := gets (λ st, signals st self) in
            let! n := lift (_DBusDescriptorBase.name (signal_base s)) in
            modify (add_log (emit_failure n args e))))
  end.

Definition emit_signal_callback (self : loc) (owner : option loc) : PyObj :=
  emit_signal_closure self owner.

Definition set_signal_base (b : descriptor_base) (self : dbus_signal) : dbus_signal :=
  {| signal_base := b; _signature := _signature self |}.

Definition set_name (n : string) (self : descriptor_base) : descriptor_base :=
  {| _interface_orig := _interface_orig self;
     _interface := _interface self;
     _name := Some n;
     _list_name := _list_name self;
     _owner := _owner self;
     _descriptor_name := _descriptor_name self |}.

Definition __set_name__ (self_ref : loc) (self : dbus_signal) (obj_type : py_class)
    (name : string) : dbus_signal * Result py_class :=
  let '(b, r) := _DBusDescriptorBase.__set_name__ "_DBusSignal" self_ref
                   (signal_base self) obj_type name in
  match r with
  | Raise e => (set_signal_base b self, Raise e)
  | Ok owner =>
      (set_signal_base (if truthy (_name b) then b else set_name (dbus_case name) b) self,
       Ok owner)
  end.

(** [register_interface(obj)] reads [obj.default_interface_root] only when
    no interface was declared; with [obj = None] that read fails. *)
Definition __get__ (self_ref : loc) (self : dbus_signal)
    (obj : option (loc * dbus_object)) : Result (dbus_signal * PyObj) :=
  match obj with
  | Some (ref, o) =>
      bind_result (_DBusDescriptorBase.register_interface (signal_base self) o) (λ b,
        Ok (set_signal_base b self, emit_signal_callback self_ref (Some ref)))
  | None =>
      if truthy (_interface_orig (signal_base self))
      then Ok (self, emit_signal_callback self_ref None)
      else Raise (AttributeError
                    "'NoneType' object has no attribute 'default_interface_root'")
  end.

End methods.
End _DBusSignal.

(** ** Attribute access on instances

    [getattr] and [setattr] as [object.__getattribute__] and
    [object.__setattr__] resolve them: a property is a data descriptor and
    wins over the instance dictionary; methods and signals define only
    [__get__] and yield to it.  [ob_dict] holds the instance attributes
    other than those [DBusObject.__init__] sets. *)
Section attribute_access.
Context `{signature_module}.

Definition method_get (m : loc) (obj : option loc) : M PyObj :=
  let! self := gets (λ st, methods st m) in
  let! o := gets (λ st, (λ ref, (ref, objects st ref)) <$> obj) in
  let! r := lift (_DBusMethodBase.__get__ self o) in
  modify (set_method m r.1) ;;;
  ret r.2.

Definition signal_get (s : loc) (obj : option loc) : M PyObj :=
  let! self := gets (λ st, signals st s) in
  let! o := gets (λ st, (λ ref, (ref, objects st ref)) <$> obj) in
  let! r := lift (_DBusSignal.__get__ s self o) in
  modify (set_signal s r.1) ;;;
  ret r.2.

Definition write_back (obj : option loc) (o : option dbus_object) : M unit :=
  match obj, o with
  | Some ref, Some o' => modify (set_object ref o')
  | _, _ => ret tt
  end.

Definition property_get (p : loc) (obj : option loc) : M PyObj :=
  let! self := gets (λ st, properties st p) in
  let! o := gets (λ st, objects st <$> obj) in
  let r := _DBusProperty.__get__ self o in
  write_back obj r.1 ;;;
  let! v := lift r.2 in
  ret (Value v).

Definition property_set (p : loc) (obj : loc) (value : Val) : M unit :=
  let! self := gets (λ st, properties st p) in
  let! o := gets (λ st, objects st obj) in
  let r := _DBusProperty.__set__ self o value in
  write_back (Some obj) r.1 ;;;
  lift r.2.

Definition property_setter (p : loc) (value : PyFunction) : M loc :=
  let! self := gets (λ st, properties st p) in
  modify (set_property p (_DBusProperty.setter self value)) ;;;
  ret p.

Definition no_attribute (o : dbus_object) (name : string) : PyExc :=
  AttributeError ("'" ++ cls_name (ob_type o) ++ "' object has no attribute '"
                  ++ name ++ "'").

Definition getattr (obj : loc) (name : string) : M PyObj :=
  let! o := gets (λ st, objects st obj) in
  match cls_dict (ob_type o) !! name with
  | Some (PropertyRef p) => property_get p (Some obj)
  | Some (MethodRef m) =>
      match ob_dict o !! name with
      | Some v => ret (Value v)
      | None => method_get m (Some obj)
      end
  | Some (SignalRef s) =>
      match ob_dict o !! name with
      | Some v => ret (Value v)
      | None => signal_get s (Some obj)
      end
  | None =>
      match ob_dict o !! name with
      | Some v => ret (Value v)
      | None => raise (no_attribute o name)
      end
  end.

Definition set_ob_dict (d : gmap string Val) (o : dbus_object) : dbus_object :=
  {| ob_type := ob_type o;
     ob_dict := d;
     is_dbus_object := is_dbus_object o;
     _emit_signal_callbacks := _emit_signal_callbacks o;
     _dbus_name := _dbus_name o;
     default_interface_root := default_interface_root o |}.

Definition setattr (obj : loc) (name : string) (value : Val) : M unit :=
  let! o := gets (λ st, objects st obj) in
  match cls_dict (ob_type o) !! name with
  | Some (PropertyRef p) => property_set p obj value
  | _ => modify (set_object obj (set_ob_dict (<[name:=value]> (ob_dict o)) o))
  end.

End attribute_access.

(** ** class DBusObject *)
Module DBusObject.
Section methods.
Context `{signature_module}.

(** [cls] is [type(self)]. *)
Definition __init__ (cls : py_class) (name default_interface_root : option string)
    : dbus_object :=
  {| ob_type := cls;
     ob_dict := ∅;
     is_dbus_object := true;
     _emit_signal_callbacks := [];
     _dbus_name := dbus_case (match name with
                              | Some n => if truthy name then n else cls_name cls
                              | None => cls_name cls
                              end);
     default_interface_root := default_interface_root |}.

Definition dbus_name (self : dbus_object) : string := _dbus_name self.

(** Calling the generator function only creates the frame. *)
Definition get_dbus_properties (self : loc) : M loc :=
  λ st,
    (Ok (next_frame st),
     alloc_frame {| f_self := self;
                    f_iter := [];
                    property_name := None;
                    descriptor := None;
                    f_status := GEN_CREATED |} st).

Definition close_frame (fr : properties_frame) : properties_frame :=
  {| f_self := f_self fr;
     f_iter := f_iter fr;
     property_name := property_name fr;
     descriptor := descriptor fr;
     f_status := GEN_CLOSED |}.

(** [descriptor.register_interface(self)] on the stored descriptor. *)
Definition property_register_interface (p : loc) (obj : loc) : M unit :=
  let! self := gets (λ st, properties st p) in
  let! o := gets (λ st, objects st obj) in
  let! b := lift (_DBusDescriptorBase.register_interface
                    (base (property_base self)) o) in
  modify (set_property p {| property_base := set_base b (property_base self);
                            _setter := _setter self |}).

(** One turn of the [for] loop, up to the [yield]. *)
Definition resume_loop (g : loc) (fr : properties_frame)
    : M (option (PyObj * PyObj * loc)) :=
  match f_iter fr with
  | [] => modify (set_frame g (close_frame fr)) ;;; ret None
  | (n, d) :: rest =>
      let fr' := {| f_self := f_self fr;
                    f_iter := rest;
                    property_name := Some n;
                    descriptor := Some d;
                    f_status := GEN_SUSPENDED |} in
      modify (set_frame g fr') ;;;
      try_except (property_register_interface d (f_self fr))
        (λ e, modify (set_frame g (close_frame fr')) ;;; raise e) ;;;
      ret (Some (getter_lambda g, setter_lambda g, d))
  end.

(** [next(g)]: the yielded triple, or [None] for [StopIteration]. *)
Definition next (g : loc) : M (option (PyObj * PyObj * loc)) :=
  let! fr := gets (λ st, frames st g) in
  match f_status fr with
  | GEN_CLOSED => ret None
  | GEN_SUSPENDED => resume_loop g fr
  | GEN_CREATED =>
      let! o := gets (λ st, objects st (f_self fr)) in
      if nonempty (_dbus_properties (ob_type o))
      then resume_loop g {| f_self := f_self fr;
                            f_iter := or_empty (_dbus_properties (ob_type o));
                            property_name := property_name fr;
                            descriptor := descriptor fr;
                            f_status := f_status fr |}
      else modify (set_frame g (close_frame fr)) ;;; ret None
  end.

(** [lambda: getattr(self, property_name)], reading the frame's cell when
    it is called. *)
Definition call_getter_lambda (g : loc) : M PyObj :=
  let! fr := gets (λ st, frames st g) in
  match property_name fr with
  | Some n => getattr (f_self fr) n
  | None => raise (NameError "free variable 'property_name' referenced before assignment in enclosing scope")
  end.

(** [lambda value: setattr(self, property_name, value)]. *)
Definition call_setter_lambda (g : loc) (value : Val) : M unit :=
  let! fr := gets (λ st, frames st g) in
  match property_name fr with
  | Some n => setattr (f_self fr) n value
  | None => raise (NameError "free variable 'property_name' referenced before assignment in enclosing scope")
  end.

Definition set_callbacks (cbs : list emit_callback) (o : dbus_object) : dbus_object :=
  {| ob_type := ob_type o;
     ob_dict := ob_dict o;
     is_dbus_object := is_dbus_object o;
     _emit_signal_callbacks := cbs;
     _dbus_name := _dbus_name o;
     default_interface_root := default_interface_root o |}.

Definition register_server (self : loc) (server : DBusServerBase) (path : string)
    : M unit :=
  let! o := gets (λ st, objects st self) in
  if negb (nonempty (_dbus_signals (ob_type o))) then ret tt
  else
    match emit_signal_callback_attr server with
    | None =>
        modify (add_warning
          ("Object '" ++ dbus_name o ++ "' emits signals but the server "
           ++ "'" ++ server_class_name server ++ "' does not support this. "
           ++ "Signals will not be emitted."))
    | Some callback =>
        modify (set_object self
          (set_callbacks (_emit_signal_callbacks o ++ [functools_partial callback path]) o))
    end.








End methods.
End DBusObject.

(** ** The decorators

    The module-level functions [dbus_method], [dbus_property], [dbus_signal]
    and [custom_dbus_signal]. *)
Module decorators.
Section functions.
Context `{signature_module}.

(** [dbus_method(interface, name, return_names, multiple_returns)(func)]. *)
Definition dbus_method (interface name : option string)
    (return_names : option (list string)) (multiple_returns : bool)
    (func : PyFunction) : Result method_base :=
  _DBusMethod.__init__ func interface name return_names multiple_returns.

(** [custom_dbus_signal] called with positional types, [interface] and
    [name], and its result called with positional and keyword types:
    the inner [constructor] has a parameter [types] of its own, which is the
    one its body reads. *)
Definition custom_dbus_signal (outer_types : list PyType) (interface name : option string)
    (types : list PyType) (named_types : list (string * PyType)) : Result dbus_signal :=
  _DBusSignal.__init__ types named_types interface name.

(** [dbus_signal] called with positional and keyword types. *)
Definition dbus_signal (types : list PyType) (named_types : list (string * PyType))
    : Result dbus_signal :=
  _DBusSignal.__init__ types named_types None None.

(** [dbus_property(interface, name, return_names, multiple_returns)(func)]. *)
Definition dbus_property (interface name : option string)
    (return_names : option (list string)) (multiple_returns : bool)
    (func : PyFunction) : Result dbus_property :=
  _DBusProperty.__init__ func interface name return_names multiple_returns.

End functions.
End decorators.

(** ** A resolver to run the model on

    Modelled from the spec: [dbus_objects/signature.py] is not among the
    sources.  The instance below follows the contract the spec gives for
    the resolver (every parameter typed, three shapes of return, arity of
    the return names) with the type codes of the DBus specification, and a
    case conversion that capitalises the words between underscores. *)
Module resolver.

Definition upper (c : Ascii.ascii) : Ascii.ascii :=
  let n := Ascii.nat_of_ascii c in
  if (97 <=? n)%nat && (n <=? 122)%nat then Ascii.ascii_of_nat (n - 32) else c.

Definition underscore : Ascii.ascii := Ascii.ascii_of_nat 95.

Fixpoint camel (capitalise : bool) (s : string) : string :=
  match s with
  | EmptyString => EmptyString
  | String c rest =>
      if decide (c = underscore) then camel true rest
      else String (if capitalise then upper c else c) (camel false rest)
  end.

Definition dbus_case (text : string) : string := camel true text.

Definition unsupported {A} : Result A := Raise (Exception_ "unsupported type").

Fixpoint type_signature (t : PyType) : Result string :=
  match t with
  | TBool => Ok "b"
  | TInt => Ok "i"
  | TFloat => Ok "d"
  | TStr => Ok "s"
  | TBytes => Ok "ay"
  | TList e => bind_result (type_signature e) (λ c, Ok ("a" ++ c))
  | TDict k v =>
      bind_result (type_signature k) (λ ck,
        bind_result (type_signature v) (λ cv, Ok ("a{" ++ ck ++ cv ++ "}")))
  | TTuple slots =>
      bind_result
        ((fix all (ts : list PyType) : Result string :=
            match ts with
            | [] => Ok ""
            | t' :: rest =>
                bind_result (type_signature t') (λ c,
                  bind_result (all rest) (λ cs, Ok (c ++ cs)))
            end) slots)
        (λ cs, Ok ("(" ++ cs ++ ")"))
  | TNoneType | TClass _ => unsupported
  end.

Fixpoint annotations (ps : list (string * option PyType)) : Result (list PyType) :=
  match ps with
  | [] => Ok []
  | (_, Some t) :: rest => bind_result (annotations rest) (λ ts, Ok (t :: ts))
  | (_, None) :: _ => Raise (Exception_ "missing type annotation")
  end.

Definition from_parameters (func : PyFunction) : Result DBusSignature :=
  bind_result (annotations (parameters func)) (λ ts,
    Ok {| sig_types := ts; names := Some (parameters func).*1 |}).

Definition named (ts : list PyType) (return_names : list string)
    : Result DBusSignature :=
  match return_names with
  | [] => Ok {| sig_types := ts; names := None |}
  | _ :: _ =>
      if decide (length return_names = length ts)
      then Ok {| sig_types := ts; names := Some return_names |}
      else Raise (Exception_ "return names do not match the return types")
  end.

Definition from_return (func : PyFunction) (return_names : list string)
    (multiple_returns : bool) : Result DBusSignature :=
  match return_annotation func with
  | None | Some TNoneType => Ok {| sig_types := []; names := None |}
  | Some (TTuple slots) =>
      if multiple_returns then named slots return_names
      else named [TTuple slots] return_names
  | Some t => named [t] return_names
  end.

Definition module : signature_module :=
  Build_signature_module dbus_case type_signature from_parameters from_return.

End resolver.

(** ** Sample declarations

    A type [Thing] with one method, two properties and one signal, none
    of which declares an interface, and an instance of it. *)
Module sample.

Definition ping : PyFunction :=
  {| __name__ := "ping";
     parameters := [("count", Some TInt); ("label", Some TStr)];
     return_annotation := Some TNoneType;
     __code__ := λ self _, (None, Ok VNone) |}.

(** [def first(self) -> int: return self.first_value], and likewise
    [second]; reading an attribute of [None] raises. *)
Definition read_attribute (attr : string) (self : option dbus_object)
    : option dbus_object * Result Val :=
  match self with
  | Some o =>
      (None,
       match ob_dict o !! attr with
       | Some v => Ok v
       | None => Raise (AttributeError
                          ("'Thing' object has no attribute '" ++ attr ++ "'"))
       end)
  | None =>
      (None, Raise (AttributeError
                      ("'NoneType' object has no attribute '" ++ attr ++ "'")))
  end.

Definition first : PyFunction :=
  {| __name__ := "first";
     parameters := [];
     return_annotation := Some TInt;
     __code__ := λ self _, read_attribute "first_value" self |}.

Definition second : PyFunction :=
  {| __name__ := "second";
     parameters := [];
     return_annotation := Some TInt;
     __code__ := λ self _, read_attribute "second_value" self |}.

(** [def set_first(self, value): self.first_value = value]. *)
Definition write_attribute (attr : string) (self : option dbus_object)
    (args : list Val) : option dbus_object * Result Val :=
  match self, args with
  | Some o, [v] => (Some (set_ob_dict (<[attr:=v]> (ob_dict o)) o), Ok VNone)
  | _, _ => (None, Raise (Exception_ "bad call"))
  end.

Definition set_first : PyFunction :=
  {| __name__ := "first";
     parameters := [("value", Some TInt)];
     return_annotation := Some TNoneType;
     __code__ := write_attribute "first_value" |}.

Definition Thing : py_class :=
  {| cls_name := "Thing";
     cls_is_DBusObject := true;
     cls_dict := {[ "ping" := MethodRef 0;
                    "first" := PropertyRef 0;
                    "second" := PropertyRef 1;
                    "changed" := SignalRef 0 ]};
     _dbus_methods := Some [("ping", 0)];
     _dbus_properties := Some [("first", 0); ("second", 1)];
     _dbus_signals := Some [("changed", 0)] |}.

Definition thing : dbus_object :=
  set_ob_dict {[ "first_value" := VInt 1; "second_value" := VInt 2 ]}
    (@DBusObject.__init__ resolver.module Thing None (Some "com.example")).

(** An instance without a default interface root. *)
Definition rootless : dbus_object :=
  @DBusObject.__init__ resolver.module Thing None None.

(** The descriptors as the class body of [Thing] leaves them. *)
Definition member_base (list_name descriptor_name : string) : descriptor_base :=
  {| _interface_orig := None;
     _interface := None;
     _name := Some (resolver.dbus_case descriptor_name);
     _list_name := Some list_name;
     _owner := Some "Thing";
     _descriptor_name := Some descriptor_name |}.

Definition ping_method : method_base :=
  {| base := member_base "_dbus_methods" "ping";
     _func := ping;
     _return_names := [];
     _multiple_returns := false;
     _input_signature := {| sig_types := [TInt; TStr];
                            names := Some ["count"; "label"] |};
     _output_signature := {| sig_types := []; names := None |} |}.

Definition property_of (func : PyFunction) : dbus_property :=
  {| property_base :=
       {| base := member_base "_dbus_properties" (__name__ func);
          _func := func;
          _return_names := [];
          _multiple_returns := false;
          _input_signature := {| sig_types := []; names := Some [] |};
          _output_signature := {| sig_types := [TInt]; names := None |} |};
     _setter := None |}.

Definition changed_signal : dbus_signal :=
  {| signal_base := member_base "_dbus_signals" "changed";
     _signature := {| sig_types := [TInt]; names := None |} |}.

(** Two transport callbacks: one that always fails, one that records the
    body it was called with under the key ["delivered"]. *)
Definition failing : emit_callback :=
  λ signal body d, (d, Some (Exception_ "connection lost")).

Definition recording : emit_callback :=
  λ signal body d, (<["delivered":=VTuple body]> d, None).

(** A server with an emission capability, and one without. *)
Definition emitting_server : DBusServerBase :=
  {| server_class_name := "Server";
     emit_signal_callback_attr :=
       Some (λ signal body path d, (<[path:=VTuple body]> d, None)) |}.

Definition mute_server : DBusServerBase :=
  {| server_class_name := "Mute"; emit_signal_callback_attr := None |}.

(** A type that declares no member at all. *)
Definition Plain : py_class :=
  {| cls_name := "Plain";
     cls_is_DBusObject := true;
     cls_dict := ∅;
     _dbus_methods := None;
     _dbus_properties := None;
     _dbus_signals := None |}.

Definition plain : dbus_object :=
  @DBusObject.__init__ resolver.module Plain None None.

Definition idle_frame : properties_frame :=
  {| f_self := 0;
     f_iter := [];
     property_name := None;
     descriptor := None;
     f_status := GEN_CLOSED |}.

(** The store: [thing] at 0, [rootless] at 1, [thing] with the two
    callbacks registered at 2, [plain] elsewhere; property [first] at 0
    and [second] elsewhere. *)
Definition state : State :=
  {| methods := λ _, ping_method;
     properties := λ l, if decide (l = 0) then property_of first else property_of second;
     signals := λ _, changed_signal;
     objects := λ l, if decide (l = 0) then thing
                     else if decide (l = 1) then rootless
                     else if decide (l = 2)
                          then DBusObject.set_callbacks [failing; recording] thing
                          else plain;
     frames := λ _, idle_frame;
     next_frame := 0;
     server_dict := ∅;
     warnings := [];
     log_records := [] |}.

End sample.

(** The [<arg>] children of an element that carry a given direction. *)
Definition args_with_direction (direction : string) (e : Element) : list Element :=
  filter (λ c, tag c = "arg" ∧ Element_get c "direction" = Some (Some direction))
         (children e).

(** ** Emission as the spec words it

    Every callback is called once, in list order, with the signal descriptor
    and the body, on the server attributes its predecessors left; a failure
    does not stop the delivery.  Returns the final server attributes and the
    failures in order. *)
Fixpoint deliver (signal : dbus_signal) (body : list Val)
    (callbacks : list emit_callback) (d : gmap string Val)
    : gmap string Val * list PyExc :=
  match callbacks with
  | [] => (d, [])
  | callback :: rest =>
      let '(d', r) := callback signal body d in
      let '(d'', failures) := deliver signal body rest d' in
      (d'', match r with
            | Some e => e :: failures
            | None => failures
            end)
  end.

(** What one run of the emission loop leaves, component by component. *)
Definition delivered (signal : dbus_signal) (n : string) (args : list Val)
    (callbacks : list emit_callback) (st st' : State) : Prop :=
  server_dict st' = (deliver signal args callbacks (server_dict st)).1
  ∧ log_records st'
    = (log_records st
       ++ (_DBusSignal.emit_failure n args
             <$> (deliver signal args callbacks (server_dict st)).2))%list
  ∧ methods st' = methods st
  ∧ properties st' = properties st
  ∧ signals st' = signals st
  ∧ objects st' = objects st
  ∧ frames st' = frames st
  ∧ next_frame st' = next_frame st
  ∧ warnings st' = warnings st.

(** ** Driving a generator *)

(** [[next(g) for _ in range(k)]]. *)
Fixpoint nexts (g : loc) (k : nat) : M (list (option (PyObj * PyObj * loc))) :=
  match k with
  | 0 => ret []
  | S k' =>
      let! t := DBusObject.next g in
      let! ts := nexts g k' in
      ret (t :: ts)
  end.

(** The members a generator has still to go through. *)
Definition pending (st : State) (g : loc) : list (string * loc) :=
  match f_status (frames st g) with
  | GEN_CREATED =>
      or_empty (_dbus_properties (ob_type (objects st (f_self (frames st g)))))
  | GEN_SUSPENDED => f_iter (frames st g)
  | GEN_CLOSED => []
  end.

(** ** Calls a client of the module can make on the store *)

Inductive api_call : Type :=
  | call_method_get (m : loc) (obj : option loc)
  | call_signal_get (s : loc) (obj : option loc)
  | call_property_get (p : loc) (obj : option loc)
  | call_property_set (p : loc) (obj : loc) (value : Val)
  | call_property_setter (p : loc) (value : PyFunction)
  | call_getattr (obj : loc) (name : string)
  | call_setattr (obj : loc) (name : string) (value : Val)
  | call_get_dbus_properties (self : loc)
  | call_next (g : loc)
  | call_getter (g : loc)
  | call_setter (g : loc) (value : Val)
  | call_register_server (self : loc) (server : DBusServerBase) (path : string)
  | call_emit_signal (s : loc) (owner : option loc) (args : list Val).

Section api.
Context `{signature_module}.

(** The store a call leaves, whether it returned or raised. *)
Definition perform (c : api_call) (st : State) : State :=
  match c with
  | call_method_get m obj => (method_get m obj st).2
  | call_signal_get s obj => (signal_get s obj st).2
  | call_property_get p obj => (property_get p obj st).2
  | call_property_set p obj value => (property_set p obj value st).2
  | call_property_setter p value => (property_setter p value st).2
  | call_getattr obj name => (getattr obj name st).2
  | call_setattr obj name value => (setattr obj name value st).2
  | call_get_dbus_properties self => (DBusObject.get_dbus_properties self st).2
  | call_next g => (DBusObject.next g st).2
  | call_getter g => (DBusObject.call_getter_lambda g st).2
  | call_setter g value => (DBusObject.call_setter_lambda g value st).2
  | call_register_server self server path =>
      (DBusObject.register_server self server path st).2
  | call_emit_signal s owner args => (_DBusSignal.emit_signal s owner args st).2
  end.

Definition perform_all (calls : list api_call) (st : State) : State :=
  foldl (λ st' c, perform c st') st calls.

End api.

(** Every property that has a setter in [st] still has one in [st']. *)
Definition setters_kept (st st' : State) : Prop :=
  ∀ p, is_Some (_setter (properties st p)) → is_Some (_setter (properties st' p)).

Definition keeps {A} (m : M A) : Prop :=
  ∀ st, setters_kept st (m st).2.

(** ** Creating a class

    [type.__new__] calls [__set_name__] on every descriptor of the class
    body, in the order of the body.  An exception of [__set_name__] ends
    the creation; the interpreters the module was written for (CPython
    before 3.12) do not pass it on as it is but raise a [RuntimeError]
    that has it as its [__cause__]. *)
Section class_creation.
Context `{signature_module}.

Definition bind_member (attr : string) (ref : member_ref) (cls : py_class) : M py_class :=
  match ref with
  | MethodRef l =>
      let! self := gets (λ st, methods st l) in
      let r := _DBusDescriptorBase.__set_name__ "_DBusMethod" l (base self) cls attr in
      modify (set_method l (set_base r.1 self)) ;;;
      lift r.2
  | PropertyRef l =>
      let! self := gets (λ st, properties st l) in
      let r := _DBusDescriptorBase.__set_name__ "_DBusProperty" l
                 (base (property_base self)) cls attr in
      modify (set_property l {| property_base := set_base r.1 (property_base self);
                                _setter := _setter self |}) ;;;
      lift r.2
  | SignalRef l =>
      let! self := gets (λ st, signals st l) in
      let r := _DBusSignal.__set_name__ l self cls attr in
      modify (set_signal l r.1) ;;;
      lift r.2
  end.

(** [type(descriptor).__name__] of a member of the class body. *)
Definition descriptor_class (ref : member_ref) : string :=
  match ref with
  | MethodRef _ => "_DBusMethod"
  | PropertyRef _ => "_DBusProperty"
  | SignalRef _ => "_DBusSignal"
  end.

Definition set_name_error (attr : string) (ref : member_ref) (cls : py_class)
    (cause : PyExc) : PyExc :=
  RuntimeError ("Error calling __set_name__ on '" ++ descriptor_class ref
                ++ "' instance '" ++ attr ++ "' in '" ++ cls_name cls ++ "'")
               cause.

Fixpoint class_body (members : list (string * member_ref)) (cls : py_class) : M py_class :=
  match members with
  | [] => ret cls
  | (attr, ref) :: rest =>
      let! cls' := try_except (bind_member attr ref cls)
                     (λ e, raise (set_name_error attr ref cls e)) in
      class_body rest cls'
  end.

End class_creation.

(** The members of a class body by kind, in the order of the body. *)
Definition method_entries (members : list (string * member_ref)) : list (string * loc) :=
  omap (λ m, match m.2 with MethodRef l => Some (m.1, l) | _ => None end) members.
Definition property_entries (members : list (string * member_ref)) : list (string * loc) :=
  omap (λ m, match m.2 with PropertyRef l => Some (m.1, l) | _ => None end) members.
Definition signal_entries (members : list (string * member_ref)) : list (string * loc) :=
  omap (λ m, match m.2 with SignalRef l => Some (m.1, l) | _ => None end) members.

(** Every stored descriptor carries the list name its constructor sets. *)
Definition constructed (st : State) : Prop :=
  (∀ l, _list_name (base (methods st l)) = Some "_dbus_methods")
  ∧ (∀ l, _list_name (base (property_base (properties st l))) = Some "_dbus_properties")
  ∧ (∀ l, _list_name (signal_base (signals st l)) = Some "_dbus_signals").

(** What binding one member does to the class. *)
Definition bound (attr : string) (ref : member_ref) (cls cls' : py_class) : Prop :=
  cls_is_DBusObject cls' = true
  ∧ cls_name cls' = cls_name cls
  ∧ cls_dict cls' = cls_dict cls
  ∧ or_empty (_dbus_methods cls')
    = (or_empty (_dbus_methods cls) ++ method_entries [(attr, ref)])%list
  ∧ or_empty (_dbus_properties cls')
    = (or_empty (_dbus_properties cls) ++ property_entries [(attr, ref)])%list
  ∧ or_empty (_dbus_signals cls')
    = (or_empty (_dbus_signals cls) ++ signal_entries [(attr, ref)])%list.

(** ** What is declared stays declared *)

(** Two states of a descriptor that differ at most in the cached interface. *)
Definition same_declaration (b b' : descriptor_base) : Prop :=
  _interface_orig b' = _interface_orig b
  ∧ _name b' = _name b
  ∧ _list_name b' = _list_name b
  ∧ _owner b' = _owner b
  ∧ _descriptor_name b' = _descriptor_name b.

Definition same_method (m m' : method_base) : Prop :=
  same_declaration (base m) (base m')
  ∧ _func m' = _func m
  ∧ _return_names m' = _return_names m
  ∧ _multiple_returns m' = _multiple_returns m
  ∧ _input_signature m' = _input_signature m
  ∧ _output_signature m' = _output_signature m.

Definition metadata_kept (st st' : State) : Prop :=
  (∀ l, same_method (methods st l) (methods st' l))
  ∧ (∀ l, same_method (property_base (properties st l)) (property_base (properties st' l)))
  ∧ (∀ l, same_declaration (signal_base (signals st l)) (signal_base (signals st' l))
          ∧ _signature (signals st' l) = _signature (signals st l)).

(** A computation that relates the store it is given to the one it leaves. *)
Definition preserves (R : State → State → Prop) {A} (m : M A) : Prop :=
  ∀ st, R st (m st).2.

(** ** More sample declarations *)
Module more.

(** A second instance of [Thing], named and rooted differently. *)
Definition other : dbus_object :=
  @DBusObject.__init__ resolver.module sample.Thing (Some "other_thing") (Some "org.other").

(** The sample store with [other] at 3. *)
Definition state : State := set_object 3 other sample.state.

(** [renamed = dbus_signal(old=int, new=str)], bound in a class body. *)
Definition renamed_signal : dbus_signal :=
  {| signal_base := sample.member_base "_dbus_signals" "renamed";
     _signature := {| sig_types := [TInt; TStr]; names := Some ["old"; "new"] |} |}.

(** A method taking a string and returning a pair, declared with
    [multiple_returns]. *)
Definition lookup_method : method_base :=
  {| base := sample.member_base "_dbus_methods" "lookup";
     _func := sample.ping;
     _return_names := [];
     _multiple_returns := true;
     _input_signature := {| sig_types := [TStr]; names := Some ["label"] |};
     _output_signature := {| sig_types := [TBool; TInt]; names := None |} |}.

(** A signal declared with an interface of its own, and the sample store
    with it at signal 1. *)
Definition declared_signal : dbus_signal :=
  {| signal_base :=
       {| _interface_orig := Some "org.example.Custom";
          _interface := Some "org.example.Custom";
          _name := Some "Renamed";
          _list_name := Some "_dbus_signals";
          _owner := Some "Thing";
          _descriptor_name := Some "renamed" |};
     _signature := {| sig_types := [TInt]; names := None |} |}.

Definition declared_state : State := set_signal 1 declared_signal sample.state.

(** A class that does not derive from [DBusObject]. *)
Definition Foreign : py_class :=
  {| cls_name := "Foreign";
     cls_is_DBusObject := false;
     cls_dict := ∅;
     _dbus_methods := None;
     _dbus_properties := None;
     _dbus_signals := None |}.

(** The class body of [Thing], in the order it is written. *)
Definition body : list (string * member_ref) :=
  [("ping", MethodRef 0); ("first", PropertyRef 0);
   ("changed", SignalRef 0); ("second", PropertyRef 1)].

End more.

(** * Properties *)

Section descriptor_base_facts.
Context `{signature_module}.

Lemma truthy_Some (s : string) : s ≠ "" → truthy (Some s) = true.
Proof. intros Hs. unfold truthy. by destruct (decide (s = "")). Qed.

Lemma append_dot_nonempty (a b : string) : a ++ "." ++ b ≠ "".
Proof. destruct a; discriminate. Qed.

(** C1: for a descriptor declared without an interface, [register_interface]
    on an owner whose [default_interface_root] is set leaves the descriptor
    with the interface ["{default_interface_root}.{owner_dbus_name}"], which
    the [interface] getter then returns; on an owner without a default
    interface root it raises [DBusObjectException] (the message names the
    member, so the member's name is read first). *)
Theorem register_interface_default_root (self : descriptor_base) (obj : dbus_object) :
  truthy (_interface_orig self) = false →
  (∀ root, default_interface_root obj = Some root → root ≠ "" →
     _DBusDescriptorBase.register_interface self obj
     = Ok (_DBusDescriptorBase.set_interface (Some (root ++ "." ++ _dbus_name obj)) self)
     ∧ _DBusDescriptorBase.interface
         (_DBusDescriptorBase.set_interface (Some (root ++ "." ++ _dbus_name obj)) self)
       = Ok (root ++ "." ++ _dbus_name obj))
  ∧ (truthy (default_interface_root obj) = false →
     ∀ n, _DBusDescriptorBase.name self = Ok n →
       _DBusDescriptorBase.register_interface self obj
       = Raise (DBusObjectException ("Missing interface in DBus method: " ++ n))).
Proof.
  intros Horig. split.
  - intros root Hroot Hne. unfold _DBusDescriptorBase.register_interface.
    rewrite Horig, Hroot, (truthy_Some root Hne). split; [done|].
    unfold _DBusDescriptorBase.interface. cbn [_interface _DBusDescriptorBase.set_interface].
    by rewrite truthy_Some by apply append_dot_nonempty.
  - intros Hroot n Hn. unfold _DBusDescriptorBase.register_interface.
    rewrite Horig.
    destruct (default_interface_root obj) as [root|] eqn:E.
    + rewrite Hroot, Hn. done.
    + rewrite Hn. done.
Qed.

End descriptor_base_facts.

(** C1 at the sample type: two members without an interface on an owner
    with root ["com.example"] and DBus name ["Thing"] both resolve
    ["com.example.Thing"]; on the owner without a root the call raises. *)
Lemma register_interface_default_root_witness :
  let ping := @_DBusDescriptorBase.__init__ resolver.module None (Some "ping") in
  let first := @_DBusDescriptorBase.__init__ resolver.module None (Some "first") in
  (∃ d, _DBusDescriptorBase.register_interface ping sample.thing = Ok d
        ∧ _DBusDescriptorBase.interface d = Ok "com.example.Thing")
  ∧ (∃ d, _DBusDescriptorBase.register_interface first sample.thing = Ok d
          ∧ _DBusDescriptorBase.interface d = Ok "com.example.Thing")
  ∧ _DBusDescriptorBase.register_interface ping sample.rootless
    = Raise (DBusObjectException "Missing interface in DBus method: Ping").
Proof.
  intros ping first.
  destruct (register_interface_default_root ping sample.thing eq_refl)
    as [Hping _].
  destruct (register_interface_default_root first sample.thing eq_refl)
    as [Hfirst _].
  destruct (register_interface_default_root ping sample.rootless eq_refl)
    as [_ Hnone].
  destruct (Hping "com.example" eq_refl ltac:(discriminate)) as [Hp1 Hp2].
  destruct (Hfirst "com.example" eq_refl ltac:(discriminate)) as [Hf1 Hf2].
  split; [|split].
  - eexists. split; [exact Hp1|exact Hp2].
  - eexists. split; [exact Hf1|exact Hf2].
  - exact (Hnone eq_refl "Ping" eq_refl).
Defined.

Section construction_facts.
Context `{signature_module}.

Lemma name_of_Some (b : descriptor_base) (n : string) :
  _name b = Some n →
  _DBusDescriptorBase.name b
  = if decide (n = "") then Raise (ValueError "Name hasn't been set yet") else Ok n.
Proof.
  intros Hn. unfold _DBusDescriptorBase.name, truthy. rewrite Hn.
  by destruct (decide (n = "")).
Qed.

Lemma DBusSignature_new_inv (types : list PyType) (ns : option (list string))
    (sig : DBusSignature) :
  DBusSignature_new types ns = Ok sig → sig = {| sig_types := types; names := ns |}.
Proof.
  unfold DBusSignature_new. destruct (map_result type_signature types); [|done].
  by intros [= <-].
Qed.

(** What a signal that was constructed holds. *)
Lemma signal_init_inv (types : list PyType) (named_types : list (string * PyType))
    (interface name : option string) (self : dbus_signal) :
  _DBusSignal.__init__ types named_types interface name = Ok self →
  signal_base self
  = set_list_name "_dbus_signals" (_DBusDescriptorBase.__init__ interface name)
  ∧ _signature self
    = (if is_nonempty named_types
       then {| sig_types := named_types.*2; names := Some named_types.*1 |}
       else {| sig_types := types; names := None |}).
Proof.
  unfold _DBusSignal.__init__.
  destruct (is_nonempty types && is_nonempty named_types); [done|].
  destruct (is_nonempty named_types).
  - destruct (DBusSignature_new _ _) as [sig|e] eqn:Hsig; [|done].
    intros [= <-]. by rewrite (DBusSignature_new_inv _ _ _ Hsig).
  - destruct (DBusSignature_new _ _) as [sig|e] eqn:Hsig; [|done].
    intros [= <-]. by rewrite (DBusSignature_new_inv _ _ _ Hsig).
Qed.

(** C10: a member name supplied explicitly is stored converted by
    [dbus_case], not verbatim, by the base constructor and by the
    constructors of methods, properties and signals; a defaulted name
    (the function's) goes through the same conversion; the [name] getter
    returns the converted form.  The constructors of methods and
    properties are taken where the resolver gives the two signatures, the
    constructor of signals wherever it returns. *)
Theorem explicit_name_is_converted (interface : option string) (n : string) :
  n ≠ "" →
  _name (_DBusDescriptorBase.__init__ interface (Some n)) = Some (dbus_case n)
  ∧ (dbus_case n ≠ "" →
     _DBusDescriptorBase.name (_DBusDescriptorBase.__init__ interface (Some n))
     = Ok (dbus_case n))
  ∧ (∀ func return_names multiple_returns input output,
       from_parameters func = Ok input →
       from_return func (or_empty return_names) multiple_returns = Ok output →
       (∃ self, _DBusMethodBase.__init__ func interface (Some n)
                  return_names multiple_returns = Ok self
                ∧ _name (base self) = Some (dbus_case n))
       ∧ (∃ self, _DBusMethod.__init__ func interface (Some n)
                    return_names multiple_returns = Ok self
                  ∧ _name (base self) = Some (dbus_case n))
       ∧ (∃ self, _DBusProperty.__init__ func interface (Some n)
                    return_names multiple_returns = Ok self
                  ∧ _name (base (property_base self)) = Some (dbus_case n))
       ∧ (__name__ func ≠ "" →
          ∃ self, _DBusMethodBase.__init__ func interface None
                    return_names multiple_returns = Ok self
                  ∧ _name (base self) = Some (dbus_case (__name__ func))))
  ∧ (∀ types named_types self,
       _DBusSignal.__init__ types named_types interface (Some n) = Ok self →
       _name (signal_base self) = Some (dbus_case n)).
Proof.
  intros Hn.
  assert (Hinit : ∀ i, _name (_DBusDescriptorBase.__init__ i (Some n)) = Some (dbus_case n)).
  { intros i. unfold _DBusDescriptorBase.__init__. cbn [_name].
    by rewrite (truthy_Some n Hn). }
  split; [apply Hinit|]. split.
  { intros Hc. rewrite (name_of_Some _ _ (Hinit interface)).
    by destruct (decide (dbus_case n = "")). }
  split.
  - intros func rn mr input output Hin Hout.
    unfold _DBusMethod.__init__, _DBusProperty.__init__, _DBusMethodBase.__init__.
    rewrite Hin, Hout, (truthy_Some n Hn). cbn [bind_result].
    split; [|split; [|split]].
    + eexists. split; [reflexivity|]. apply Hinit.
    + eexists. split; [reflexivity|]. apply Hinit.
    + eexists. split; [reflexivity|]. apply Hinit.
    + intros Hf. eexists. split; [reflexivity|]. cbn [base truthy].
      unfold _DBusDescriptorBase.__init__. cbn [_name].
      by rewrite (truthy_Some _ Hf).
  - intros types named_types self Hself.
    destruct (signal_init_inv _ _ _ _ _ Hself) as [-> _]. exact (Hinit interface).
Qed.

(** Declared members carry a name: a signal bound in a class body gets
    one from [__set_name__] when none was supplied. *)
Lemma signal_set_name_named (self_ref : loc) (self self' : dbus_signal)
    (obj_type owner : py_class) (attr : string) :
  _DBusSignal.__set_name__ self_ref self obj_type attr = (self', Ok owner) →
  dbus_case attr ≠ "" →
  ∃ n, _DBusDescriptorBase.name (signal_base self') = Ok n.
Proof.
  unfold _DBusSignal.__set_name__.
  destruct (_DBusDescriptorBase.__set_name__ _ _ _ _ _) as [b [owner'|e]]; [|done].
  intros [= <- <-] Hattr. cbn [signal_base _DBusSignal.set_signal_base].
  destruct (truthy (_name b)) eqn:Hb.
  - unfold _DBusDescriptorBase.name. destruct (_name b) as [n|]; [|done].
    rewrite Hb. by exists n.
  - exists (dbus_case attr). unfold _DBusDescriptorBase.name.
    cbn [_name _DBusSignal.set_name]. by rewrite truthy_Some.
Qed.

(** C6: constructing a signal with both positional and named types
    raises [ValueError], before any signature is built.  With only named
    types the signature is built by [DBusSignature] from the values of
    the mapping, with its keys as names; with only positional types, or
    with neither, from the positional sequence: the signal is constructed
    when that call
    returns, and holds the signature made of what was given; when the call
    raises, which it does for a type without a DBus code, its error leaves
    the constructor.  With neither the construction always succeeds. *)
Theorem signal_init_either_shape (types : list PyType)
    (named_types : list (string * PyType)) (interface name : option string) :
  (types ≠ [] → named_types ≠ [] →
     ∃ msg, _DBusSignal.__init__ types named_types interface name
            = Raise (ValueError msg))
  ∧ (types = [] → named_types ≠ [] →
     (∀ sig, DBusSignature_new named_types.*2 (Some named_types.*1) = Ok sig →
        ∃ self, _DBusSignal.__init__ types named_types interface name = Ok self
                ∧ _signature self = sig
                ∧ sig = {| sig_types := named_types.*2;
                           names := Some named_types.*1 |})
     ∧ (∀ e, DBusSignature_new named_types.*2 (Some named_types.*1) = Raise e →
          _DBusSignal.__init__ types named_types interface name = Raise e))
  ∧ (named_types = [] →
     (∀ sig, DBusSignature_new types None = Ok sig →
        ∃ self, _DBusSignal.__init__ types named_types interface name = Ok self
                ∧ _signature self = sig
                ∧ sig = {| sig_types := types; names := None |})
     ∧ (∀ e, DBusSignature_new types None = Raise e →
          _DBusSignal.__init__ types named_types interface name = Raise e))
  ∧ (types = [] → named_types = [] →
     ∃ self, _DBusSignal.__init__ types named_types interface name = Ok self
             ∧ _signature self = {| sig_types := []; names := None |}).
Proof.
  unfold _DBusSignal.__init__. split; [|split; [|split]].
  - intros Ht Hn. destruct types; [done|]. destruct named_types; [done|].
    cbn. by eexists.
  - intros -> Hn. destruct named_types as [|p named_types]; [done|].
    cbn [is_nonempty andb]. split.
    + intros sig Hsig. rewrite Hsig. cbn [bind_result].
      eexists. split; [reflexivity|]. split; [reflexivity|].
      exact (DBusSignature_new_inv _ _ _ Hsig).
    + intros e He. by rewrite He.
  - intros ->. rewrite andb_false_r. cbn [is_nonempty]. split.
    + intros sig Hsig. rewrite Hsig. cbn [bind_result].
      eexists. split; [reflexivity|]. split; [reflexivity|].
      exact (DBusSignature_new_inv _ _ _ Hsig).
    + intros e He. by rewrite He.
  - intros -> ->. cbn. by eexists.
Qed.

(** C5: the [<property>] element carries [access="read"] while no
    setter is attached and [access="readwrite"] once one is. *)
Theorem property_xml_access (self : dbus_property) (n sig : string) :
  _DBusDescriptorBase.name (base (property_base self)) = Ok n →
  _DBusProperty.signature self = Ok sig →
  (∃ e, _DBusProperty.xml self = Ok e
        ∧ tag e = "property"
        ∧ Element_get e "access"
          = Some (Some (match _setter self with
                        | None => "read"
                        | Some _ => "readwrite"
                        end)))
  ∧ (∀ fn, ∃ e, _DBusProperty.xml (_DBusProperty.setter self fn) = Ok e
                ∧ tag e = "property"
                ∧ Element_get e "access" = Some (Some "readwrite")).
Proof.
  intros Hn Hsig. split.
  - unfold _DBusProperty.xml. cbn [signature_bool negb orb].
    rewrite Hn. cbn [bind_result]. rewrite Hsig. cbn [bind_result].
    eexists. split; [reflexivity|]. split; reflexivity.
  - intros fn. unfold _DBusProperty.xml, _DBusProperty.setter, _DBusProperty.signature in *.
    cbn [signature_bool negb orb property_base _setter].
    rewrite Hn. cbn [bind_result]. rewrite Hsig. cbn [bind_result].
    eexists. split; [reflexivity|]. split; reflexivity.
Qed.

End construction_facts.

(** The sample descriptors are what the constructors and [__set_name__]
    produce for the class body of [Thing]. *)
Example sample_members_declared :
  (∃ m, @_DBusMethod.__init__ resolver.module sample.ping None None None false = Ok m
        ∧ set_base (_DBusDescriptorBase.__set_name__ "_DBusMethod" 0 (base m)
                      sample.Thing "ping").1 m
          = sample.ping_method)
  ∧ (∃ s, @_DBusSignal.__init__ resolver.module [TInt] [] None None = Ok s
          ∧ (@_DBusSignal.__set_name__ resolver.module 0 s sample.Thing "changed").1
            = sample.changed_signal).
Proof. split; eexists; (split; [reflexivity|]); reflexivity. Qed.

(** ** Setters stay attached *)

Section setters.
Context `{signature_module}.

Lemma setters_kept_refl (st : State) : setters_kept st st.
Proof. by intros p. Qed.

Lemma setters_kept_trans (st1 st2 st3 : State) :
  setters_kept st1 st2 → setters_kept st2 st3 → setters_kept st1 st3.
Proof. intros H12 H23 p Hp. by apply H23, H12. Qed.

Lemma setters_kept_same (st st' : State) :
  properties st' = properties st → setters_kept st st'.
Proof. intros Heq p. by rewrite Heq. Qed.

Lemma keeps_ret {A} (a : A) : keeps (ret a).
Proof. intros st. apply setters_kept_refl. Qed.

Lemma keeps_raise {A} (e : PyExc) : keeps (@raise A e).
Proof. intros st. apply setters_kept_refl. Qed.

Lemma keeps_lift {A} (r : Result A) : keeps (lift r).
Proof. intros st. apply setters_kept_refl. Qed.

Lemma keeps_gets {A} (f : State → A) : keeps (gets f).
Proof. intros st. apply setters_kept_refl. Qed.

Lemma keeps_modify (f : State → State) :
  (∀ st, setters_kept st (f st)) → keeps (modify f).
Proof. intros Hf st. apply Hf. Qed.

Lemma keeps_bind {A B} (m : M A) (k : A → M B) :
  keeps m → (∀ a, keeps (k a)) → keeps (bind m k).
Proof.
  intros Hm Hk st. unfold bind. specialize (Hm st).
  destruct (m st) as [[a|e] st1]; [|done].
  eapply setters_kept_trans; [exact Hm|apply Hk].
Qed.

Lemma keeps_try_except {A} (m : M A) (h : PyExc → M A) :
  keeps m → (∀ e, keeps (h e)) → keeps (try_except m h).
Proof.
  intros Hm Hh st. unfold try_except. specialize (Hm st).
  destruct (m st) as [[a|e] st1]; [done|].
  eapply setters_kept_trans; [exact Hm|apply Hh].
Qed.

Lemma keeps_for_each {A} (xs : list A) (body : A → M unit) :
  (∀ x, keeps (body x)) → keeps (for_each xs body).
Proof.
  intros Hbody. induction xs as [|x xs IH]; [apply keeps_ret|].
  cbn [for_each]. apply keeps_bind; [apply Hbody|done].
Qed.

Lemma keeps_write_back (obj : option loc) (o : option dbus_object) :
  keeps (write_back obj o).
Proof.
  destruct obj, o; try apply keeps_ret.
  apply keeps_modify. intros st. by apply setters_kept_same.
Qed.

Create HintDb keeps discriminated.
#[local] Hint Resolve keeps_ret keeps_raise keeps_lift keeps_gets keeps_write_back : keeps.
#[local] Hint Extern 1 (setters_kept _ _) => (apply setters_kept_same; reflexivity) : keeps.

Ltac keeps_step :=
  lazy zeta;
  lazymatch goal with
  | |- keeps (bind _ _) => apply keeps_bind; [|intros ?]
  | |- keeps (try_except _ _) => apply keeps_try_except; [|intros ?]
  | |- keeps (for_each _ _) => apply keeps_for_each; intros ?
  | |- keeps (modify _) => apply keeps_modify; intros ?
  | |- _ => solve [auto with keeps]
  end.

Lemma keeps_method_get (m : loc) (obj : option loc) : keeps (method_get m obj).
Proof. unfold method_get. repeat keeps_step. Qed.

Lemma keeps_signal_get (s : loc) (obj : option loc) : keeps (signal_get s obj).
Proof. unfold signal_get. repeat keeps_step. Qed.

Lemma keeps_property_get (p : loc) (obj : option loc) : keeps (property_get p obj).
Proof. unfold property_get. repeat keeps_step. Qed.

Lemma keeps_property_set (p obj : loc) (value : Val) : keeps (property_set p obj value).
Proof. unfold property_set. repeat keeps_step. Qed.

Lemma properties_set_property (p q : loc) (x : dbus_property) (st : State) :
  properties (set_property p x st) q = if decide (p = q) then x else properties st q.
Proof. reflexivity. Qed.

Lemma keeps_property_setter (p : loc) (value : PyFunction) :
  keeps (property_setter p value).
Proof.
  intros st q Hq. unfold property_setter, bind, gets, modify, ret.
  cbn [snd]. rewrite properties_set_property.
  destruct (decide (p = q)); [by eexists|done].
Qed.

Lemma keeps_property_register_interface (p obj : loc) :
  keeps (DBusObject.property_register_interface p obj).
Proof.
  intros st q Hq. unfold DBusObject.property_register_interface, bind, gets, lift, modify.
  destruct (_DBusDescriptorBase.register_interface _ _) as [b|e]; [|done].
  cbn [snd]. rewrite properties_set_property.
  destruct (decide (p = q)) as [->|]; done.
Qed.

Lemma keeps_getattr (obj : loc) (name : string) : keeps (getattr obj name).
Proof.
  unfold getattr. apply keeps_bind; [auto with keeps|]. intros o.
  destruct (cls_dict (ob_type o) !! name) as [[m|p|s]|]; [| |  |];
    try destruct (ob_dict o !! name);
    auto using keeps_property_get, keeps_method_get, keeps_signal_get with keeps.
Qed.

Lemma keeps_setattr (obj : loc) (name : string) (value : Val) :
  keeps (setattr obj name value).
Proof.
  unfold setattr. apply keeps_bind; [auto with keeps|]. intros o.
  destruct (cls_dict (ob_type o) !! name) as [[m|p|s]|];
    try apply keeps_property_set; repeat keeps_step.
Qed.

Lemma keeps_resume_loop (g : loc) (fr : properties_frame) :
  keeps (DBusObject.resume_loop g fr).
Proof.
  unfold DBusObject.resume_loop. destruct (f_iter fr) as [|[n d] rest].
  - repeat keeps_step.
  - apply keeps_bind; [repeat keeps_step|]. intros _.
    apply keeps_bind; [|intros ?; auto with keeps].
    apply keeps_try_except; [apply keeps_property_register_interface|].
    intros e. repeat keeps_step.
Qed.

Lemma keeps_next (g : loc) : keeps (DBusObject.next g).
Proof.
  unfold DBusObject.next. apply keeps_bind; [auto with keeps|]. intros fr.
  destruct (f_status fr); [|apply keeps_resume_loop|auto with keeps].
  apply keeps_bind; [auto with keeps|]. intros o.
  destruct (nonempty _); [apply keeps_resume_loop|repeat keeps_step].
Qed.

Lemma keeps_emit_signal (s : loc) (owner : option loc) (args : list Val) :
  keeps (_DBusSignal.emit_signal s owner args).
Proof.
  unfold _DBusSignal.emit_signal. destruct owner as [o|]; [|auto with keeps].
  apply keeps_bind; [auto with keeps|]. intros cbs.
  apply keeps_for_each. intros cb. apply keeps_try_except.
  - intros st. unfold _DBusSignal.call_callback.
    destruct (cb _ _ _) as [d r]. by apply setters_kept_same.
  - intros e. repeat keeps_step.
Qed.

Lemma keeps_register_server (self : loc) (server : DBusServerBase) (path : string) :
  keeps (DBusObject.register_server self server path).
Proof.
  unfold DBusObject.register_server. apply keeps_bind; [auto with keeps|]. intros o.
  destruct (negb _); [auto with keeps|].
  destruct (emit_signal_callback_attr server); repeat keeps_step.
Qed.

Lemma perform_keeps (c : api_call) (st : State) : setters_kept st (perform c st).
Proof.
  destruct c; cbn [perform].
  - apply keeps_method_get.
  - apply keeps_signal_get.
  - apply keeps_property_get.
  - apply keeps_property_set.
  - apply keeps_property_setter.
  - apply keeps_getattr.
  - apply keeps_setattr.
  - by apply setters_kept_same.
  - apply keeps_next.
  - unfold DBusObject.call_getter_lambda.
    apply keeps_bind; [auto with keeps|]. intros fr.
    destruct (property_name fr); [apply keeps_getattr|auto with keeps].
  - unfold DBusObject.call_setter_lambda.
    apply keeps_bind; [auto with keeps|]. intros fr.
    destruct (property_name fr); [apply keeps_setattr|auto with keeps].
  - apply keeps_register_server.
  - apply keeps_emit_signal.
Qed.

Lemma perform_all_keeps (calls : list api_call) (st : State) :
  setters_kept st (perform_all calls st).
Proof.
  revert st. induction calls as [|c calls IH]; intros st; [apply setters_kept_refl|].
  cbn [perform_all foldl]. eapply setters_kept_trans; [apply perform_keeps|apply IH].
Qed.

End setters.

(** ** Writing properties and attaching to a server *)

Section writes.
Context `{signature_module}.

(** C7: writing through an instance while no setter is attached raises
    [AttributeError] ("<member> has no setter") and leaves the store as it
    was; [setter(fn)] returns the descriptor itself with [fn] attached, and
    a write then calls [fn] with the instance and the value; whatever calls
    follow, a property that has a setter keeps one. *)
Theorem property_write (st : State) (p obj : loc) (value : Val) :
  (_setter (properties st p) = None →
     ∃ msg, property_set p obj value st = (Raise (AttributeError msg), st)
            ∧ ∀ n, _descriptor_name (base (property_base (properties st p))) = Some n →
                   msg = n ++ " has no setter")
  ∧ (∀ fn,
       property_setter p fn st
       = (Ok p, set_property p (_DBusProperty.setter (properties st p) fn) st)
       ∧ _setter (_DBusProperty.setter (properties st p) fn) = Some fn
       ∧ property_base (_DBusProperty.setter (properties st p) fn)
         = property_base (properties st p)
       ∧ let st' := set_property p (_DBusProperty.setter (properties st p) fn) st in
         let call := __code__ fn (Some (objects st obj)) [value] in
         property_set p obj value st'
         = (bind_result call.2 (λ _, Ok tt),
            match call.1 with
            | Some o' => set_object obj o' st'
            | None => st'
            end))
  ∧ (∀ calls, is_Some (_setter (properties st p)) →
       is_Some (_setter (properties (perform_all calls st) p))).
Proof.
  split; [|split].
  - intros Hnone. unfold property_set, bind, gets, lift, write_back, ret.
    unfold _DBusProperty.__set__. rewrite Hnone. cbn [fst snd].
    destruct (_descriptor_name _) as [n|] eqn:E.
    + eexists. split; [reflexivity|]. by intros ? [= <-].
    + eexists. split; [reflexivity|]. by intros ? [=].
  - intros fn. repeat split.
    unfold property_set, bind, gets, lift, write_back, ret, modify.
    rewrite properties_set_property. rewrite decide_True by done.
    unfold _DBusProperty.__set__, _DBusProperty.setter. cbn [_setter objects set_property].
    destruct (__code__ fn _ _) as [[o'|] [v|e]]; reflexivity.
  - intros calls. apply perform_all_keeps.
Qed.

(** C8: [register_server] does nothing when the type declares no signal;
    with signals declared and a server without [emit_signal_callback] it
    records one warning and leaves the callbacks alone; otherwise it
    appends exactly one callback, the server's with [path] bound. *)
Theorem register_server_cases (st : State) (self : loc) (server : DBusServerBase)
    (path : string) :
  let o := objects st self in
  (nonempty (_dbus_signals (ob_type o)) = false →
     DBusObject.register_server self server path st = (Ok tt, st))
  ∧ (nonempty (_dbus_signals (ob_type o)) = true →
     emit_signal_callback_attr server = None →
     ∃ w st', DBusObject.register_server self server path st = (Ok tt, st')
              ∧ warnings st' = (warnings st ++ [w])%list
              ∧ objects st' = objects st)
  ∧ (nonempty (_dbus_signals (ob_type o)) = true →
     ∀ callback, emit_signal_callback_attr server = Some callback →
     ∃ st', DBusObject.register_server self server path st = (Ok tt, st')
            ∧ _emit_signal_callbacks (objects st' self)
              = (_emit_signal_callbacks o ++ [functools_partial callback path])%list
            ∧ (∀ signal body d,
                 functools_partial callback path signal body d = callback signal body path d)
            ∧ warnings st' = warnings st
            ∧ ∀ other, other ≠ self → objects st' other = objects st other).
Proof.
  intros o. unfold DBusObject.register_server, bind, gets, modify, ret.
  fold o. split; [|split].
  - intros ->. reflexivity.
  - intros -> ->. cbn [negb]. do 2 eexists. split; [reflexivity|]. split; reflexivity.
  - intros -> callback ->. cbn [negb]. eexists. split; [reflexivity|].
    cbn [objects set_object]. rewrite fn_lookup_insert. repeat split.
    intros other Hother. by rewrite fn_lookup_insert_ne.
Qed.

End writes.

(** C7 on the sample store: [first] has no setter, so writing it raises
    and changes nothing; once [set_first] is attached a write stores the
    value on the instance. *)
Lemma property_write_witness :
  (∃ msg, property_set 0 0 (VInt 7) sample.state
          = (Raise (AttributeError msg), sample.state)
          ∧ msg = "first has no setter")
  ∧ (let st' := set_property 0 (_DBusProperty.setter (properties sample.state 0)
                                  sample.set_first) sample.state in
     ob_dict (objects (property_set 0 0 (VInt 7) st').2 0) !! "first_value"
     = Some (VInt 7))
  ∧ is_Some (_setter (properties
       (perform_all
          [call_property_set 0 0 (VInt 7); call_next 0; call_property_setter 1 sample.set_first]
          (set_property 0 (_DBusProperty.setter (properties sample.state 0)
                             sample.set_first) sample.state)) 0)).
Proof.
  destruct (property_write sample.state 0 0 (VInt 7)) as (Hraise & Hset & _).
  destruct (Hraise eq_refl) as (msg & Hmsg & Hname).
  destruct (Hset sample.set_first) as (_ & _ & _ & Hcall).
  split; [|split].
  - exists msg. split; [exact Hmsg|exact (Hname "first" eq_refl)].
  - cbv zeta in Hcall |- *. rewrite Hcall. reflexivity.
  - destruct (property_write
                (set_property 0 (_DBusProperty.setter (properties sample.state 0)
                                   sample.set_first) sample.state) 0 0 (VInt 7))
      as (_ & _ & Hkeep).
    apply Hkeep. by eexists.
Defined.

(** C8 on the sample store: [plain] declares no signal, [thing] does. *)
Lemma register_server_cases_witness :
  DBusObject.register_server 7 sample.emitting_server "/thing" sample.state
  = (Ok tt, sample.state)
  ∧ (∃ w st', DBusObject.register_server 0 sample.mute_server "/thing" sample.state
              = (Ok tt, st')
              ∧ warnings st' = [w]
              ∧ objects st' = objects sample.state)
  ∧ (∃ st', DBusObject.register_server 0 sample.emitting_server "/thing" sample.state
            = (Ok tt, st')
            ∧ length (_emit_signal_callbacks (objects st' 0)) = 1).
Proof.
  split; [|split].
  - destruct (register_server_cases sample.state 7 sample.emitting_server "/thing")
      as (Hnone & _ & _).
    exact (Hnone eq_refl).
  - destruct (register_server_cases sample.state 0 sample.mute_server "/thing")
      as (_ & Hmute & _).
    destruct (Hmute eq_refl eq_refl) as (w & st' & Hrun & Hw & Ho).
    exists w, st'. split; [exact Hrun|]. split; [exact Hw|exact Ho].
  - destruct (register_server_cases sample.state 0 sample.emitting_server "/thing")
      as (_ & _ & Hemit).
    destruct (Hemit eq_refl _ eq_refl) as (st' & Hrun & Hcbs & _).
    exists st'. split; [exact Hrun|]. rewrite Hcbs. reflexivity.
Defined.

(** ** Introspection of methods *)

Section method_xml.
Context `{signature_module}.

(** C4: for a method whose input signature has the two slots of
    [(int, str)] and whose output signature is empty ([None] return), the
    [<method>] element has exactly two children, both [<arg>] with
    [direction="in"], carrying the type codes of [int] and [str] in order,
    and no [<arg>] with [direction="out"]. *)
Theorem method_xml_int_str (self : method_base) (n ci cs : string) :
  _DBusDescriptorBase.name (base self) = Ok n →
  sig_types (_input_signature self) = [TInt; TStr] →
  signature_wf (_input_signature self) →
  sig_types (_output_signature self) = [] →
  signature_wf (_output_signature self) →
  type_signature TInt = Ok ci →
  type_signature TStr = Ok cs →
  ∃ e a1 a2,
    _DBusMethod.xml self = Ok e
    ∧ tag e = "method"
    ∧ children e = [a1; a2]
    ∧ (tag a1 = "arg" ∧ Element_get a1 "direction" = Some (Some "in")
       ∧ Element_get a1 "type" = Some (Some ci))
    ∧ (tag a2 = "arg" ∧ Element_get a2 "direction" = Some (Some "in")
       ∧ Element_get a2 "type" = Some (Some cs))
    ∧ length (args_with_direction "in" e) = 2
    ∧ length (args_with_direction "out" e) = 0.
Proof.
  intros Hn Hin Hwfin Hout Hwfout Hci Hcs.
  unfold _DBusMethod.xml, signature_list. cbn [signature_bool negb orb].
  rewrite Hn, Hin, Hout. cbn [bind_result map_result]. rewrite Hci, Hcs.
  cbn [bind_result].
  assert (Hnout : or_empty (names (_output_signature self)) = []).
  { unfold signature_wf in Hwfout. rewrite Hout in Hwfout.
    destruct (names (_output_signature self)) as [[|? ?]|]; done. }
  rewrite Hnout.
  assert (Hnin : or_empty (names (_input_signature self)) = []
                 ∨ ∃ n1 n2, or_empty (names (_input_signature self)) = [n1; n2]).
  { unfold signature_wf in Hwfin. rewrite Hin in Hwfin.
    destruct (names (_input_signature self)) as [[|n1 [|n2 [|? ?]]]|]; try done;
      [|by left]. right. by exists n1, n2. }
  destruct Hnin as [->|(n1 & n2 & ->)].
  - do 3 eexists. split; [reflexivity|]. cbn.
    repeat split; reflexivity.
  - unfold add_args, arg_data. cbn [zip_longest foldl fmap list_fmap fst snd].
    destruct (truthy (Some n1)), (truthy (Some n2));
      do 3 eexists; (split; [reflexivity|]); cbn; repeat split; reflexivity.
Qed.

End method_xml.

(** C4 on the sample method [ping(count: int, label: str) -> None]. *)
Lemma method_xml_int_str_witness :
  ∃ e a1 a2,
    @_DBusMethod.xml resolver.module sample.ping_method = Ok e
    ∧ children e = [a1; a2]
    ∧ Element_get a1 "type" = Some (Some "i")
    ∧ Element_get a2 "type" = Some (Some "s")
    ∧ length (args_with_direction "in" e) = 2
    ∧ length (args_with_direction "out" e) = 0.
Proof.
  destruct (@method_xml_int_str resolver.module sample.ping_method "Ping" "i" "s"
              eq_refl eq_refl eq_refl eq_refl I eq_refl eq_refl)
    as (e & a1 & a2 & Hxml & _ & Hch & (_ & _ & Ht1) & (_ & _ & Ht2) & Hin & Hout).
  exists e, a1, a2. repeat split; assumption.
Defined.

(** ** Emission *)

Section emission.
Context `{signature_module}.

Lemma emit_loop (self : loc) (args : list Val) (n : string)
    (callbacks : list emit_callback) (st : State) :
  _DBusDescriptorBase.name (signal_base (signals st self)) = Ok n →
  ∃ st',
    for_each callbacks (λ callback,
      try_except (_DBusSignal.call_callback callback self args)
        (λ e,
          let! s := gets (λ st, signals st self) in
          let! n := lift (_DBusDescriptorBase.name (signal_base s)) in
          modify (add_log (_DBusSignal.emit_failure n args e)))) st
    = (Ok tt, st')
    ∧ delivered (signals st self) n args callbacks st st'.
Proof.
  revert st. induction callbacks as [|callback rest IH]; intros st Hn.
  - exists st. split; [reflexivity|]. unfold delivered.
    cbn [deliver fst snd fmap list_fmap].
    rewrite app_nil_r. repeat split.
  - unfold delivered in *. cbn [for_each deliver].
    unfold bind at 1. unfold try_except at 1.
    unfold _DBusSignal.call_callback at 1.
    destruct (callback (signals st self) args (server_dict st)) as [d [e|]] eqn:Hcall.
    + unfold bind at 1, gets at 1. cbn [signals set_server_dict].
      unfold bind at 1, lift at 1. rewrite Hn. unfold modify at 1.
      destruct (IH (add_log (_DBusSignal.emit_failure n args e) (set_server_dict d st)) Hn)
        as (st' & Hrun & Hd).
      exists st'. split; [exact Hrun|].
      cbn [signals server_dict log_records methods properties
        objects frames next_frame warnings add_log set_server_dict] in Hd.
      destruct (deliver (signals st self) args rest d) as [d'' failures].
      cbn [fst snd fmap list_fmap] in *.
      destruct Hd as (-> & -> & -> & -> & -> & -> & -> & -> & ->).
      rewrite <- app_assoc. repeat split.
    + destruct (IH (set_server_dict d st) Hn) as (st' & Hrun & Hd).
      exists st'. split; [exact Hrun|].
      cbn [signals server_dict log_records methods properties
        objects frames next_frame warnings set_server_dict] in Hd.
      destruct (deliver (signals st self) args rest d) as [d'' failures].
      cbn [fst snd] in *. exact Hd.
Qed.

(** C2: emitting a signal (whose name is resolved) calls every registered
    callback once, in order, with the signal descriptor and the argument
    tuple, whether or not earlier callbacks raised; each failure is logged;
    the call returns normally and touches nothing but the server's
    attributes and the log. *)
Theorem emit_signal_isolates_failures (st : State) (self owner : loc)
    (args : list Val) (n : string) :
  _DBusDescriptorBase.name (signal_base (signals st self)) = Ok n →
  ∃ st',
    _DBusSignal.emit_signal self (Some owner) args st = (Ok tt, st')
    ∧ delivered (signals st self) n args (_emit_signal_callbacks (objects st owner)) st st'.
Proof.
  intros Hn. unfold _DBusSignal.emit_signal. unfold bind at 1, gets at 1.
  apply emit_loop, Hn.
Qed.

End emission.

(** C2 on the sample store: of the two callbacks registered on the
    instance at 2 the first raises and the second still receives the body;
    the emitter sees no exception, and the failure is logged. *)
Lemma emit_signal_isolates_failures_witness :
  ∃ st',
    _DBusSignal.emit_signal 0 (Some 2) [VInt 5] sample.state = (Ok tt, st')
    ∧ server_dict st' !! "delivered" = Some (VTuple [VInt 5])
    ∧ log_records st'
      = [_DBusSignal.emit_failure "Changed" [VInt 5] (Exception_ "connection lost")].
Proof.
  destruct (emit_signal_isolates_failures sample.state 0 2 [VInt 5] "Changed" eq_refl)
    as (st' & Hrun & Hd & Hlog & _).
  exists st'. split; [exact Hrun|]. split.
  - rewrite Hd. reflexivity.
  - rewrite Hlog. reflexivity.
Defined.

(** ** The lambdas of [get_dbus_properties] *)

Section generator.
Context `{signature_module}.

Lemma property_register_interface_frames (p obj : loc) (st : State) :
  frames (DBusObject.property_register_interface p obj st).2 = frames st
  ∧ objects (DBusObject.property_register_interface p obj st).2 = objects st.
Proof.
  unfold DBusObject.property_register_interface, bind, gets, lift, modify.
  by destruct (_DBusDescriptorBase.register_interface _ _).
Qed.

Lemma resume_loop_yield (g : loc) (fr : properties_frame) (st st' : State)
    (t : PyObj * PyObj * loc) :
  DBusObject.resume_loop g fr st = (Ok (Some t), st') →
  ∃ n d rest,
    f_iter fr = (n, d) :: rest
    ∧ t = (getter_lambda g, setter_lambda g, d)
    ∧ frames st' g = {| f_self := f_self fr;
                        f_iter := rest;
                        property_name := Some n;
                        descriptor := Some d;
                        f_status := GEN_SUSPENDED |}
    ∧ objects st' = objects st.
Proof.
  unfold DBusObject.resume_loop. destruct (f_iter fr) as [|[n d] rest]; [done|].
  unfold bind at 1, modify at 1. unfold bind at 1, try_except at 1.
  pose proof (property_register_interface_frames d (f_self fr)
                (set_frame g {| f_self := f_self fr;
                                f_iter := rest;
                                property_name := Some n;
                                descriptor := Some d;
                                f_status := GEN_SUSPENDED |} st)) as [Hf Ho].
  destruct (DBusObject.property_register_interface d (f_self fr) _) as [[[]|e] st1].
  - intros [= <- <-]. exists n, d, rest. repeat split.
    + cbn [snd] in Hf. rewrite Hf. cbn [frames set_frame]. apply fn_lookup_insert.
    + cbn [snd] in Ho. by rewrite Ho.
  - done.
Qed.

Lemma next_yield (g : loc) (st st' : State) (t : PyObj * PyObj * loc) :
  DBusObject.next g st = (Ok (Some t), st') →
  ∃ n d rest,
    pending st g = (n, d) :: rest
    ∧ t = (getter_lambda g, setter_lambda g, d)
    ∧ frames st' g = {| f_self := f_self (frames st g);
                        f_iter := rest;
                        property_name := Some n;
                        descriptor := Some d;
                        f_status := GEN_SUSPENDED |}
    ∧ objects st' = objects st.
Proof.
  unfold DBusObject.next, pending. unfold bind at 1, gets at 1.
  destruct (f_status (frames st g)) eqn:Hstatus.
  - unfold bind at 1, gets at 1.
    destruct (nonempty _) eqn:Hne; [|done].
    intros Hrun. apply resume_loop_yield in Hrun.
    destruct Hrun as (n & d & rest & Hiter & -> & Hfr & Ho).
    exists n, d, rest. cbn [f_iter f_self] in *. done.
  - intros Hrun. apply resume_loop_yield in Hrun.
    destruct Hrun as (n & d & rest & Hiter & -> & Hfr & Ho).
    by exists n, d, rest.
  - done.
Qed.

Lemma pending_after_yield (g : loc) (st' : State) (self : loc) (n : string)
    (d : loc) (rest : list (string * loc)) :
  frames st' g = {| f_self := self;
                    f_iter := rest;
                    property_name := Some n;
                    descriptor := Some d;
                    f_status := GEN_SUSPENDED |} →
  pending st' g = rest.
Proof. intros Hfr. unfold pending. by rewrite Hfr. Qed.

(** After [k] yields the frame holds the name of the [k]-th member, and
    every triple handed out so far carries the same two closures. *)
Lemma nexts_yield (g : loc) (k : nat) (st st' : State) (ts : list (PyObj * PyObj * loc)) :
  nexts g (S k) st = (Ok (Some <$> ts), st') →
  ts = (λ nd, (getter_lambda g, setter_lambda g, nd.2)) <$> take (S k) (pending st g)
  ∧ length ts = S k
  ∧ f_self (frames st' g) = f_self (frames st g)
  ∧ property_name (frames st' g) = fst <$> pending st g !! k
  ∧ is_Some (pending st g !! k)
  ∧ objects st' = objects st.
Proof.
  revert st ts. induction k as [|k IH]; intros st ts.
  - cbn [nexts]. unfold bind at 1.
    destruct (DBusObject.next g st) as [[[t|]|e] st1] eqn:Hnext.
    + unfold bind, ret. intros [= Hts <-].
      destruct ts as [|t' [|? ?]]; try done. injection Hts as <-.
      apply next_yield in Hnext.
      destruct Hnext as (n & d & rest & Hp & -> & Hfr & Ho).
      rewrite Hp, Hfr. cbn. repeat split; [by eexists|done].
    + unfold bind, ret. intros [= Hts <-]. by destruct ts.
    + done.
  - change (nexts g (S (S k))) with
      (let! t := DBusObject.next g in let! ts := nexts g (S k) in ret (t :: ts)).
    unfold bind at 1.
    destruct (DBusObject.next g st) as [[[t|]|e] st1] eqn:Hnext.
    + unfold bind at 1.
      destruct (nexts g (S k) st1) as [[ts1|e] st2] eqn:Hrest; [|done].
      unfold ret. intros [= Hts <-].
      destruct ts as [|t' ts']; [done|]. injection Hts as <- ->.
      apply next_yield in Hnext.
      destruct Hnext as (n & d & rest & Hp & -> & Hfr & Ho).
      destruct (IH st1 ts' Hrest) as (-> & Hlen & Hself & Hname & Hsome & Ho').
      rewrite (pending_after_yield _ _ _ _ _ _ Hfr) in *.
      rewrite Hp, Hself, Hfr, Hname, Ho', Ho. cbn [f_self].
      split; [reflexivity|]. split; [cbn [length]; by rewrite Hlen|].
      repeat split; done.
    + unfold bind at 1.
      destruct (nexts g (S k) st1) as [[ts1|e] st2]; [|done].
      unfold ret. intros [= Hts <-]. by destruct ts.
    + done.
Qed.

(** C9: the getter and setter of every triple yielded by
    [get_dbus_properties] are closures over the generator's frame: once
    the generator has yielded its [k]-th triple, calling the getter or the
    setter of any triple yielded so far reads or writes the property named
    in the [k]-th member, which, the declared names being distinct, is not
    the one an earlier triple was yielded with. *)
Theorem lambdas_close_over_loop_variable (st0 st1 st' : State) (self g : loc)
    (k : nat) (ts : list (PyObj * PyObj * loc)) :
  DBusObject.get_dbus_properties self st0 = (Ok g, st1) →
  nexts g (S k) st1 = (Ok (Some <$> ts), st') →
  let members := or_empty (_dbus_properties (ob_type (objects st0 self))) in
  ∃ nk dk,
    members !! k = Some (nk, dk)
    ∧ ts !! k = Some (getter_lambda g, setter_lambda g, dk)
    ∧ DBusObject.call_getter_lambda g st' = getattr self nk st'
    ∧ (∀ value, DBusObject.call_setter_lambda g value st' = setattr self nk value st')
    ∧ ∀ i t, ts !! i = Some t →
        ∃ ni di, members !! i = Some (ni, di)
                 ∧ t = (getter_lambda g, setter_lambda g, di)
                 ∧ (NoDup members.*1 → i ≠ k → ni ≠ nk).
Proof.
  intros Hgen Hrun members.
  unfold DBusObject.get_dbus_properties in Hgen. injection Hgen as <- <-.
  apply nexts_yield in Hrun.
  destruct Hrun as (-> & Hlen & Hself & Hname & [[nk dk] Hk] & Ho).
  assert (Hpending : pending (alloc_frame
            {| f_self := self; f_iter := []; property_name := None;
               descriptor := None; f_status := GEN_CREATED |} st0) (next_frame st0)
          = members).
  { unfold pending. cbn [frames objects alloc_frame]. rewrite fn_lookup_insert.
    reflexivity. }
  rewrite Hpending in *.
  cbn [frames alloc_frame] in Hself. rewrite fn_lookup_insert in Hself.
  cbn [f_self] in Hself.
  rewrite Hk in Hname. cbn [fmap option_fmap option_map fst] in Hname.
  exists nk, dk. split; [done|]. split.
  { rewrite list_lookup_fmap, lookup_take_lt by lia. by rewrite Hk. }
  split.
  { unfold DBusObject.call_getter_lambda, bind at 1, gets at 1.
    by rewrite Hname, Hself. }
  split.
  { intros value. unfold DBusObject.call_setter_lambda, bind at 1, gets at 1.
    by rewrite Hname, Hself. }
  intros i t Hi. rewrite list_lookup_fmap in Hi.
  destruct (take (S k) members !! i) as [[ni di]|] eqn:Hti; [|done].
  injection Hi as <-.
  apply lookup_take_Some in Hti as [Hmi Hlt].
  exists ni, di. split; [done|]. split; [done|].
  intros Hnd Hik ->. apply Hik.
  eapply NoDup_lookup; [exact Hnd| |].
  - rewrite list_lookup_fmap, Hmi. reflexivity.
  - rewrite list_lookup_fmap, Hk. reflexivity.
Qed.

End generator.

(** C9 on the sample store: [Thing] declares [first] (stored value 1) and
    [second] (stored value 2).  After the generator has yielded both
    triples, the getter handed out with [first] reads [second]. *)
Lemma lambdas_close_over_loop_variable_witness :
  let st1 := (DBusObject.get_dbus_properties 0 sample.state).2 in
  let st' := (nexts 0 2 st1).2 in
  (nexts 0 2 st1).1
  = Ok [Some (getter_lambda 0, setter_lambda 0, 0); Some (getter_lambda 0, setter_lambda 0, 1)]
  ∧ (DBusObject.call_getter_lambda 0 st').1 = Ok (Value (VInt 2))
  ∧ (getattr 0 "first" st').1 = Ok (Value (VInt 1)).
Proof.
  intros st1 st'.
  assert (Hrun : nexts 0 2 st1
                 = (Ok (Some <$> [(getter_lambda 0, setter_lambda 0, 0);
                                  (getter_lambda 0, setter_lambda 0, 1)]), st')).
  { rewrite (surjective_pairing (nexts 0 2 st1)). f_equal. }
  destruct (lambdas_close_over_loop_variable sample.state st1 st' 0 0 1 _ eq_refl Hrun)
    as (nk & dk & Hk & _ & Hget & _).
  injection Hk as <- <-.
  split; [by rewrite Hrun|]. split.
  - rewrite Hget. vm_compute. reflexivity.
  - vm_compute. reflexivity.
Defined.

(** ** Access through the descriptor protocol *)

Section access.
Context `{signature_module}.

(** C3, amended: a method read through the type is the raw function,
    returned without being called and with the descriptor left as it was;
    read through an instance for which an interface is declared or a
    default interface root is configured it is that function bound to the
    instance.  A property read through an instance is the result of
    calling its function on the instance, as with the built-in property. *)
Theorem descriptor_get (m : method_base) (p : dbus_property) (st : State)
    (prop obj : loc) (o : dbus_object) :
  _DBusMethodBase.__get__ m None = Ok (m, Function (_func m))
  ∧ (truthy (_interface_orig (base m)) = true ∨ truthy (default_interface_root o) = true →
     ∃ b, _DBusDescriptorBase.register_interface (base m) o = Ok b
          ∧ _DBusMethodBase.__get__ m (Some (obj, o))
            = Ok (set_base b m, MethodType (_func m) obj)
          ∧ _func (set_base b m) = _func m)
  ∧ _DBusProperty.__get__ p (Some o) = __code__ (_func (property_base p)) (Some o) []
  ∧ (property_get prop (Some obj) st).1
    = bind_result
        (__code__ (_func (property_base (properties st prop))) (Some (objects st obj)) []).2
        (λ v, Ok (Value v)).
Proof.
  split; [reflexivity|]. split; [|split; [reflexivity|]].
  - intros Hresolvable. unfold _DBusMethodBase.__get__, _DBusDescriptorBase.register_interface.
    destruct (truthy (_interface_orig (base m))) eqn:Horig.
    + eexists. split; [reflexivity|]. split; reflexivity.
    + destruct Hresolvable as [|Hroot]; [done|].
      destruct (default_interface_root o) as [root|]; [|done].
      rewrite Hroot. eexists. split; [reflexivity|]. split; reflexivity.
  - unfold property_get, bind, gets, lift, ret, write_back, modify.
    cbn [fmap option_fmap option_map _DBusProperty.__get__].
    destruct (__code__ _ _ _) as [[o'|] [v|e]]; reflexivity.
Qed.

End access.

(** C3 as stated fails for properties: on the sample store, reading the
    property [first] through the type calls the function with [None]
    (here it raises) instead of returning it, and reading it through the
    instance yields the stored value, not a bound callable. *)
Lemma property_get_calls_function :
  (property_get 0 None sample.state).1
  = Raise (AttributeError "'NoneType' object has no attribute 'first_value'")
  ∧ (property_get 0 None sample.state).1
    ≠ Ok (Function (_func (property_base (properties sample.state 0))))
  ∧ (property_get 0 (Some 0) sample.state).1 = Ok (Value (VInt 1))
  ∧ (property_get 0 (Some 0) sample.state).1
    ≠ Ok (MethodType (_func (property_base (properties sample.state 0))) 0).
Proof.
  assert (Htype : (property_get 0 None sample.state).1
                  = Raise (AttributeError "'NoneType' object has no attribute 'first_value'"))
    by (vm_compute; reflexivity).
  assert (Hinst : (property_get 0 (Some 0) sample.state).1 = Ok (Value (VInt 1)))
    by (vm_compute; reflexivity).
  rewrite Htype, Hinst. repeat split; discriminate.
Qed.

(** The amended C3 on the sample store. *)
Lemma descriptor_get_witness :
  _DBusMethodBase.__get__ sample.ping_method None
  = Ok (sample.ping_method, Function sample.ping)
  ∧ (∃ b, _DBusMethodBase.__get__ sample.ping_method (Some (0, sample.thing))
          = Ok (set_base b sample.ping_method, MethodType sample.ping 0)
          ∧ _DBusDescriptorBase.interface b = Ok "com.example.Thing")
  ∧ (property_get 0 (Some 0) sample.state).1 = Ok (Value (VInt 1)).
Proof.
  destruct (descriptor_get sample.ping_method (sample.property_of sample.first)
              sample.state 0 0 sample.thing) as (Htype & Hinst & _ & Hprop).
  destruct (Hinst (or_intror eq_refl)) as (b & Hb & Hget & _).
  split; [exact Htype|]. split.
  - exists b. split; [exact Hget|]. injection Hb as <-. reflexivity.
  - etrans; [exact Hprop|]. vm_compute. reflexivity.
Defined.

(** C5 on the sample property [first], before and after [set_first] is
    attached. *)
Lemma property_xml_access_witness :
  (∃ e, @_DBusProperty.xml resolver.module (sample.property_of sample.first) = Ok e
        ∧ Element_get e "access" = Some (Some "read"))
  ∧ (∃ e, @_DBusProperty.xml resolver.module
            (_DBusProperty.setter (sample.property_of sample.first) sample.set_first) = Ok e
          ∧ Element_get e "access" = Some (Some "readwrite")).
Proof.
  destruct (@property_xml_access resolver.module (sample.property_of sample.first)
              "First" "i" eq_refl eq_refl) as ((e1 & Hx1 & _ & Ha1) & Hrw).
  destruct (Hrw sample.set_first) as (e2 & Hx2 & _ & Ha2).
  split; [exists e1|exists e2]; split; assumption.
Defined.

(** C6 on three declarations: both kinds of types, named only, neither. *)
Lemma signal_init_either_shape_witness :
  (∃ msg, @_DBusSignal.__init__ resolver.module [TInt] [("label", TStr)] None None
          = Raise (ValueError msg))
  ∧ (∃ self, @_DBusSignal.__init__ resolver.module [] [("label", TStr)] None None = Ok self
             ∧ _signature self = {| sig_types := [TStr]; names := Some ["label"] |})
  ∧ (∃ self, @_DBusSignal.__init__ resolver.module [] [] None None = Ok self
             ∧ _signature self = {| sig_types := []; names := None |}).
Proof.
  destruct (@signal_init_either_shape resolver.module [TInt] [("label", TStr)] None None)
    as (Hboth & _ & _ & _).
  destruct (@signal_init_either_shape resolver.module [] [("label", TStr)] None None)
    as (_ & Hnamed & _ & _).
  destruct (@signal_init_either_shape resolver.module [] [] None None)
    as (_ & _ & _ & Hnone).
  split; [|split].
  - apply Hboth; discriminate.
  - destruct (Hnamed eq_refl ltac:(discriminate)) as [Hok _].
    destruct (Hok _ eq_refl) as (self & Hself & Hsig & _).
    exists self. split; [exact Hself|exact Hsig].
  - apply Hnone; reflexivity.
Defined.

(** The claim of C6 that a construction with only one kind of types
    succeeds fails on a type that has no DBus code: the positional
    declaration of a signal carrying a [Widget] raises the resolver's
    error, and no signal is constructed. *)
Lemma signal_init_unsupported_type :
  @_DBusSignal.__init__ resolver.module [TClass "Widget"] [] None None
  = Raise (Exception_ "unsupported type")
  ∧ ∀ self, @_DBusSignal.__init__ resolver.module [TClass "Widget"] [] None None
            ≠ Ok self.
Proof.
  split; [reflexivity|]. intros self. discriminate.
Qed.

(** C10 on the explicit name ["get_value"]: stored and returned as
    ["GetValue"]. *)
Lemma explicit_name_is_converted_witness :
  _name (@_DBusDescriptorBase.__init__ resolver.module None (Some "get_value"))
  = Some "GetValue"
  ∧ _DBusDescriptorBase.name
      (@_DBusDescriptorBase.__init__ resolver.module None (Some "get_value"))
    = Ok "GetValue"
  ∧ (∃ self, @_DBusMethod.__init__ resolver.module sample.ping None (Some "get_value")
               None false = Ok self
             ∧ _name (base self) = Some "GetValue")
  ∧ (∃ self, @_DBusSignal.__init__ resolver.module [TInt] [] None (Some "get_value")
             = Ok self
             ∧ _name (signal_base self) = Some "GetValue").
Proof.
  destruct (@explicit_name_is_converted resolver.module None "get_value"
              ltac:(discriminate)) as (Hstored & Hname & Hmethods & Hsignals).
  destruct (Hmethods sample.ping None false _ _ eq_refl eq_refl) as (_ & Hmethod & _).
  split; [exact Hstored|]. split; [|split; [exact Hmethod|]].
  - apply Hname. discriminate.
  - eexists. split; [reflexivity|]. exact (Hsignals [TInt] [] _ eq_refl).
Defined.

(** * Further properties of the module *)

(** ** Interfaces: declared, cached, shared *)

Section interface_facts.
Context `{signature_module}.

Lemma register_interface_synthesizes (self : descriptor_base) (obj : dbus_object)
    (root : string) :
  truthy (_interface_orig self) = false →
  default_interface_root obj = Some root → root ≠ "" →
  _DBusDescriptorBase.register_interface self obj
  = Ok (_DBusDescriptorBase.set_interface (Some (root ++ "." ++ _dbus_name obj)) self).
Proof.
  intros Horig Hroot Hne. unfold _DBusDescriptorBase.register_interface.
  by rewrite Horig, Hroot, (truthy_Some root Hne).
Qed.

Lemma interface_synthesized (self : descriptor_base) (root n : string) :
  _DBusDescriptorBase.interface
    (_DBusDescriptorBase.set_interface (Some (root ++ "." ++ n)) self)
  = Ok (root ++ "." ++ n).
Proof.
  unfold _DBusDescriptorBase.interface. cbn [_interface _DBusDescriptorBase.set_interface].
  by rewrite truthy_Some by apply append_dot_nonempty.
Qed.

Lemma set_name_keeps_interface (class_name : string) (l : loc) (b : descriptor_base)
    (cls : py_class) (attr : string) :
  _interface_orig (_DBusDescriptorBase.__set_name__ class_name l b cls attr).1
  = _interface_orig b
  ∧ _interface (_DBusDescriptorBase.__set_name__ class_name l b cls attr).1
    = _interface b.
Proof.
  unfold _DBusDescriptorBase.__set_name__.
  destruct (negb (cls_is_DBusObject cls)); [done|]. cbv zeta.
  cbn [_list_name _DBusDescriptorBase.set_owner].
  destruct (_list_name b) as [ln|]; [|done]. by destruct (truthy (Some ln)).
Qed.

(** X1: the interface given to [dbus_method] is never replaced.  For the
    method the decorator returns, and for that method once the creation
    of a class has run [__set_name__] on it, [register_interface] leaves
    the descriptor alone whatever the owner configures, the getter returns
    the declared interface, and access through an instance binds the
    function without touching it. *)
Theorem declared_interface_wins (i : string) (name : option string)
    (return_names : option (list string)) (multiple_returns : bool)
    (func : PyFunction) (m0 m : method_base) (st : State) (l : loc)
    (cls : py_class) (attr : string) (obj : dbus_object) (ref : loc) :
  i ≠ "" →
  decorators.dbus_method (Some i) name return_names multiple_returns func = Ok m0 →
  m = m0
  ∨ m = methods (bind_member attr (MethodRef l) cls (set_method l m0 st)).2 l →
  _DBusDescriptorBase.register_interface (base m) obj = Ok (base m)
  ∧ _DBusDescriptorBase.interface (base m) = Ok i
  ∧ ∃ m', _DBusMethodBase.__get__ m (Some (ref, obj)) = Ok (m', MethodType func ref)
          ∧ _DBusDescriptorBase.interface (base m') = Ok i.
Proof.
  intros Hi Hdecl Hm.
  assert (Hm0 : _interface_orig (base m0) = Some i ∧ _interface (base m0) = Some i
                ∧ _func m0 = func).
  { revert Hdecl. unfold decorators.dbus_method, _DBusMethod.__init__,
      _DBusMethodBase.__init__.
    destruct (from_parameters func); [|done]. cbn [bind_result].
    destruct (from_return _ _ _); [|done]. cbn [bind_result].
    by intros [= <-]. }
  assert (Hfields : _interface_orig (base m) = Some i ∧ _interface (base m) = Some i
                    ∧ _func m = func).
  { destruct Hm as [->| ->]; [exact Hm0|].
    unfold bind_member, bind, gets, modify, lift. cbn [fst snd methods set_method].
    rewrite !fn_lookup_insert. cbn [base set_base _func].
    destruct (set_name_keeps_interface "_DBusMethod" l (base m0) cls attr) as [-> ->].
    exact Hm0. }
  destruct Hfields as (Horig & Hint & Hfunc).
  assert (Hreg : _DBusDescriptorBase.register_interface (base m) obj = Ok (base m)).
  { unfold _DBusDescriptorBase.register_interface. by rewrite Horig, truthy_Some. }
  assert (Hget : _DBusDescriptorBase.interface (base m) = Ok i).
  { unfold _DBusDescriptorBase.interface. by rewrite Hint, truthy_Some. }
  split; [exact Hreg|]. split; [exact Hget|].
  unfold _DBusMethodBase.__get__. rewrite Hreg, Hfunc. cbn [bind_result].
  eexists. split; [reflexivity|]. exact Hget.
Qed.

(** X2: the interface synthesized for one instance is cached on the
    descriptor all instances share: after the same method has been read
    through two instances, the descriptor reports the interface of the
    second, whichever it reported before; each bound method keeps its own
    instance. *)
Theorem interface_follows_last_instance (st : State) (m a b : loc) (ra rb : string) :
  truthy (_interface_orig (base (methods st m))) = false →
  default_interface_root (objects st a) = Some ra → ra ≠ "" →
  default_interface_root (objects st b) = Some rb → rb ≠ "" →
  ∃ st1 st2,
    method_get m (Some a) st = (Ok (MethodType (_func (methods st m)) a), st1)
    ∧ _DBusDescriptorBase.interface (base (methods st1 m))
      = Ok (ra ++ "." ++ _dbus_name (objects st a))
    ∧ method_get m (Some b) st1 = (Ok (MethodType (_func (methods st m)) b), st2)
    ∧ _DBusDescriptorBase.interface (base (methods st2 m))
      = Ok (rb ++ "." ++ _dbus_name (objects st b)).
Proof.
  intros Horig Ha Hra Hb Hrb.
  pose proof (register_interface_synthesizes _ _ _ Horig Ha Hra) as Hrega1.
  pose proof (interface_synthesized (base (methods st m)) ra (_dbus_name (objects st a)))
    as Hrega2.
  do 2 eexists. split; [|split; [|split]].
  - unfold method_get, bind, gets, lift, modify, ret.
    cbn [fmap option_fmap option_map]. unfold _DBusMethodBase.__get__.
    rewrite Hrega1. cbn [bind_result fst snd]. reflexivity.
  - cbn [methods set_method]. rewrite fn_lookup_insert. exact Hrega2.
  - unfold method_get, bind, gets, lift, modify, ret.
    cbn [fmap option_fmap option_map methods objects set_method].
    rewrite fn_lookup_insert. unfold _DBusMethodBase.__get__.
    cbn [base set_base _func].
    unfold _DBusDescriptorBase.register_interface at 1.
    cbn [_interface_orig _DBusDescriptorBase.set_interface]. rewrite Horig, Hb.
    rewrite (truthy_Some rb Hrb). cbn [bind_result fst snd]. reflexivity.
  - cbn [methods set_method]. rewrite fn_lookup_insert. cbn [base set_base].
    unfold _DBusDescriptorBase.interface. cbn [_interface _DBusDescriptorBase.set_interface].
    by rewrite truthy_Some by apply append_dot_nonempty.
Qed.

End interface_facts.

(** X1 on [ping] declared with [dbus_method('org.example.Custom')] in the
    class body of [Thing], read through the sample instance whose root is
    ["com.example"]. *)
Lemma declared_interface_wins_witness :
  ∃ m0,
    @decorators.dbus_method resolver.module (Some "org.example.Custom") None None false
      sample.ping = Ok m0
    ∧ _DBusDescriptorBase.interface
        (base (methods (@bind_member resolver.module "ping" (MethodRef 0) sample.Thing
                          (set_method 0 m0 sample.state)).2 0))
      = Ok "org.example.Custom"
    ∧ ∃ m', _DBusMethodBase.__get__
              (methods (@bind_member resolver.module "ping" (MethodRef 0) sample.Thing
                          (set_method 0 m0 sample.state)).2 0)
              (Some (0, sample.thing))
            = Ok (m', MethodType sample.ping 0)
            ∧ _DBusDescriptorBase.interface (base m') = Ok "org.example.Custom".
Proof.
  eexists. split; [reflexivity|].
  destruct (@declared_interface_wins resolver.module "org.example.Custom" None None false
              sample.ping _ _ sample.state 0 sample.Thing "ping" sample.thing 0
              ltac:(discriminate) eq_refl (or_intror eq_refl)) as (_ & Hget & Hbound).
  split; [exact Hget|exact Hbound].
Defined.

(** X2 on the sample method, read through [thing] and then through
    [other]. *)
Lemma interface_follows_last_instance_witness :
  ∃ st1 st2,
    method_get 0 (Some 0) more.state = (Ok (MethodType sample.ping 0), st1)
    ∧ _DBusDescriptorBase.interface (base (methods st1 0)) = Ok "com.example.Thing"
    ∧ method_get 0 (Some 3) st1 = (Ok (MethodType sample.ping 3), st2)
    ∧ _DBusDescriptorBase.interface (base (methods st2 0)) = Ok "org.other.OtherThing".
Proof.
  destruct (interface_follows_last_instance more.state 0 0 3 "com.example" "org.other"
              eq_refl eq_refl ltac:(discriminate) eq_refl ltac:(discriminate))
    as (st1 & st2 & H1 & H2 & H3 & H4).
  exists st1, st2. repeat split; assumption.
Defined.

(** ** Declaring members *)

Section declaration_facts.
Context `{signature_module}.

(** X3: a descriptor bound in a class that does not derive from
    [DBusObject] is rejected with [DBusObjectException]: nothing is recorded
    on the descriptor (a signal does not even get its default name).  The
    creation of a class with such a member fails at it: the interpreter
    (CPython before 3.12) raises a [RuntimeError] whose cause is that
    exception. *)
Theorem foreign_owner_rejected (class_name : string) (ref : loc) (b : descriptor_base)
    (s : dbus_signal) (cls : py_class) (attr : string) (r : member_ref)
    (rest : list (string * member_ref)) (st : State) :
  cls_is_DBusObject cls = false →
  _DBusDescriptorBase.__set_name__ class_name ref b cls attr
  = (b, Raise (DBusObjectException
                 ("The " ++ class_name ++ " decorator can only be used inside DBusObject")))
  ∧ (signal_base (_DBusSignal.__set_name__ ref s cls attr).1 = signal_base s
     ∧ (_DBusSignal.__set_name__ ref s cls attr).2
       = Raise (DBusObjectException
                  "The _DBusSignal decorator can only be used inside DBusObject"))
  ∧ ∃ msg, (class_body ((attr, r) :: rest) cls st).1
           = Raise (RuntimeError msg
                      (DBusObjectException
                         ("The " ++ descriptor_class r
                          ++ " decorator can only be used inside DBusObject"))).
Proof.
  intros Hcls.
  assert (Hbase : ∀ cn l b', _DBusDescriptorBase.__set_name__ cn l b' cls attr
            = (b', Raise (DBusObjectException
                 ("The " ++ cn ++ " decorator can only be used inside DBusObject")))).
  { intros cn l b'. unfold _DBusDescriptorBase.__set_name__. by rewrite Hcls. }
  split; [apply Hbase|]. split.
  - unfold _DBusSignal.__set_name__. rewrite Hbase. split; reflexivity.
  - cbn [class_body]. unfold bind at 1, try_except.
    destruct r as [l|l|l]; unfold bind_member, bind, gets, modify, lift;
      [| |unfold _DBusSignal.__set_name__]; rewrite Hbase; cbn; by eexists.
Qed.

Lemma set_name_appends (class_name list_name : string) (ref : loc) (b : descriptor_base)
    (cls : py_class) (attr : string) (l : option (list (string * loc))) :
  cls_is_DBusObject cls = true →
  _list_name b = Some list_name → list_name ≠ "" →
  _DBusDescriptorBase.get_member_list cls list_name = Ok l →
  _DBusDescriptorBase.__set_name__ class_name ref b cls attr
  = (_DBusDescriptorBase.set_owner (cls_name cls) attr b,
     Ok (_DBusDescriptorBase.set_member_list cls list_name (or_empty l ++ [(attr, ref)]))).
Proof.
  intros Hcls Hln Hne Hl. unfold _DBusDescriptorBase.__set_name__.
  rewrite Hcls. cbn [negb _list_name _DBusDescriptorBase.set_owner].
  by rewrite Hln, (truthy_Some _ Hne), Hl.
Qed.

Lemma bind_member_bound (attr : string) (ref : member_ref) (cls : py_class) (st : State) :
  constructed st → cls_is_DBusObject cls = true →
  ∃ cls' st', bind_member attr ref cls st = (Ok cls', st')
              ∧ constructed st' ∧ bound attr ref cls cls'.
Proof.
  intros (Hm & Hp & Hs) Hcls. destruct ref as [l|l|l].
  - unfold bind_member, bind, gets, modify, lift. cbv zeta.
    rewrite (set_name_appends _ "_dbus_methods" _ _ _ _ (_dbus_methods cls) Hcls (Hm l))
      by done.
    do 2 eexists. split; [reflexivity|]. split.
    + split; [|split]; [|exact Hp|exact Hs]. intros l'. cbn [methods set_method fst].
      destruct (decide (l = l')) as [->|Hne];
        [rewrite fn_lookup_insert|rewrite fn_lookup_insert_ne by done]; [apply Hm|apply Hm].
    + unfold bound. cbn. rewrite !app_nil_r. by rewrite Hcls.
  - unfold bind_member, bind, gets, modify, lift. cbv zeta.
    rewrite (set_name_appends _ "_dbus_properties" _ _ _ _ (_dbus_properties cls) Hcls (Hp l))
      by done.
    do 2 eexists. split; [reflexivity|]. split.
    + split; [|split]; [exact Hm| |exact Hs]. intros l'. cbn [properties set_property fst].
      destruct (decide (l = l')) as [->|Hne];
        [rewrite fn_lookup_insert|rewrite fn_lookup_insert_ne by done]; [apply Hp|apply Hp].
    + unfold bound. cbn. rewrite !app_nil_r. by rewrite Hcls.
  - unfold bind_member, bind, gets, modify, lift, _DBusSignal.__set_name__. cbv zeta.
    rewrite (set_name_appends _ "_dbus_signals" _ _ _ _ (_dbus_signals cls) Hcls (Hs l))
      by done.
    do 2 eexists. split; [reflexivity|]. split.
    + split; [|split]; [exact Hm|exact Hp|]. intros l'. cbn [signals set_signal fst].
      destruct (decide (l = l')) as [->|Hne];
        [rewrite fn_lookup_insert|rewrite fn_lookup_insert_ne by done]; [|apply Hs].
      cbn [signal_base _DBusSignal.set_signal_base].
      destruct (truthy _); cbn [_list_name _DBusSignal.set_name _DBusDescriptorBase.set_owner];
        apply Hs.
    + unfold bound. cbn. rewrite !app_nil_r. by rewrite Hcls.
Qed.

(** X4: creating a class appends every member to the list of its kind, in
    the order of the class body and after the entries the class already
    has; the other lists, the name and the namespace of the class are left
    alone. *)
Theorem class_body_keeps_order (members : list (string * member_ref)) (cls : py_class)
    (st : State) :
  constructed st → cls_is_DBusObject cls = true →
  ∃ cls' st',
    class_body members cls st = (Ok cls', st')
    ∧ constructed st'
    ∧ cls_name cls' = cls_name cls
    ∧ cls_dict cls' = cls_dict cls
    ∧ or_empty (_dbus_methods cls')
      = (or_empty (_dbus_methods cls) ++ method_entries members)%list
    ∧ or_empty (_dbus_properties cls')
      = (or_empty (_dbus_properties cls) ++ property_entries members)%list
    ∧ or_empty (_dbus_signals cls')
      = (or_empty (_dbus_signals cls) ++ signal_entries members)%list.
Proof.
  revert cls st. induction members as [|[attr ref] rest IH]; intros cls st Hst Hcls.
  - exists cls, st. split; [reflexivity|]. cbn. by rewrite !app_nil_r.
  - destruct (bind_member_bound attr ref cls st Hst Hcls)
      as (cls1 & st1 & Hbind & Hst1 & Hcls1 & Hn1 & Hd1 & Hm1 & Hp1 & Hs1).
    destruct (IH cls1 st1 Hst1 Hcls1) as (cls' & st' & Hrun & Hst' & Hn & Hd & Hm & Hp & Hs).
    exists cls', st'. split.
    { cbn [class_body]. unfold bind at 1, try_except. by rewrite Hbind. }
    split; [exact Hst'|]. split; [congruence|]. split; [congruence|].
    rewrite Hm, Hp, Hs, Hm1, Hp1, Hs1, <- !app_assoc.
    unfold method_entries, property_entries, signal_entries.
    repeat split; f_equal; by destruct ref.
Qed.

End declaration_facts.

(** X3 on the sample method bound in a class outside [DBusObject]. *)
Lemma foreign_owner_rejected_witness :
  _DBusDescriptorBase.__set_name__ "_DBusMethod" 0 (base sample.ping_method)
    more.Foreign "ping"
  = (base sample.ping_method,
     Raise (DBusObjectException
              "The _DBusMethod decorator can only be used inside DBusObject"))
  ∧ ∃ msg, (@class_body resolver.module more.body more.Foreign sample.state).1
           = Raise (RuntimeError msg
                      (DBusObjectException
                         "The _DBusMethod decorator can only be used inside DBusObject")).
Proof.
  destruct (@foreign_owner_rejected resolver.module "_DBusMethod" 0
              (base sample.ping_method) sample.changed_signal more.Foreign "ping"
              (MethodRef 0) (tail more.body) sample.state eq_refl)
    as (Hbase & _ & Hbody).
  split; [exact Hbase|exact Hbody].
Defined.

Lemma sample_state_constructed : constructed sample.state.
Proof.
  split; [|split]; intros l; [reflexivity| |reflexivity].
  cbn [properties sample.state]. by destruct (decide (l = 0)).
Defined.

(** X4 on the class body of [Thing], starting from a class without
    members. *)
Lemma class_body_keeps_order_witness :
  ∃ cls' st',
    @class_body resolver.module more.body sample.Plain sample.state = (Ok cls', st')
    ∧ or_empty (_dbus_methods cls') = [("ping", 0)]
    ∧ or_empty (_dbus_properties cls') = [("first", 0); ("second", 1)]
    ∧ or_empty (_dbus_signals cls') = [("changed", 0)].
Proof.
  destruct (@class_body_keeps_order resolver.module more.body sample.Plain sample.state
              sample_state_constructed eq_refl)
    as (cls' & st' & Hrun & _ & _ & _ & Hm & Hp & Hs).
  exists cls', st'. repeat split; assumption.
Defined.

(** ** Signals from the decorators *)

Section signal_facts.
Context `{signature_module}.

(** A signal that was constructed is constructed as well under any other
    interface and name, with the same signature. *)
Lemma signal_init_ok (types : list PyType) (named_types : list (string * PyType))
    (interface name interface' name' : option string) (s : dbus_signal) :
  _DBusSignal.__init__ types named_types interface name = Ok s →
  _DBusSignal.__init__ types named_types interface' name'
  = Ok {| signal_base := set_list_name "_dbus_signals"
                           (_DBusDescriptorBase.__init__ interface' name');
          _signature := _signature s |}.
Proof.
  unfold _DBusSignal.__init__.
  destruct (is_nonempty types && is_nonempty named_types); [done|].
  destruct (is_nonempty named_types);
    (destruct (DBusSignature_new _ _) as [sig|e]; [|done]); by intros [= <-].
Qed.

Lemma signal_set_name_ok (ref : loc) (s : dbus_signal) (cls : py_class) (attr : string) :
  cls_is_DBusObject cls = true →
  _list_name (signal_base s) = Some "_dbus_signals" →
  ∃ cls',
    _DBusSignal.__set_name__ ref s cls attr
    = (_DBusSignal.set_signal_base
         (if truthy (_name (signal_base s))
          then _DBusDescriptorBase.set_owner (cls_name cls) attr (signal_base s)
          else _DBusSignal.set_name (dbus_case attr)
                 (_DBusDescriptorBase.set_owner (cls_name cls) attr (signal_base s))) s,
       Ok cls').
Proof.
  intros Hcls Hln. unfold _DBusSignal.__set_name__.
  rewrite (set_name_appends _ "_dbus_signals" _ _ _ _ (_dbus_signals cls) Hcls Hln) by done.
  eexists. reflexivity.
Qed.

(** X5: a signal made by [dbus_signal] has no name of its own: until it is
    bound in a class its [name] and its [xml] raise [ValueError]; binding
    it as attribute [attr] names it [dbus_case attr] and records [attr]. *)
Theorem signal_named_at_binding (types : list PyType)
    (named_types : list (string * PyType)) (s : dbus_signal) (ref : loc)
    (cls : py_class) (attr : string) :
  decorators.dbus_signal types named_types = Ok s →
  cls_is_DBusObject cls = true →
  dbus_case attr ≠ "" →
  _DBusDescriptorBase.name (signal_base s) = Raise (ValueError "Name hasn't been set yet")
  ∧ _DBusSignal.xml s = Raise (ValueError "Name hasn't been set yet")
  ∧ ∃ s' cls',
      _DBusSignal.__set_name__ ref s cls attr = (s', Ok cls')
      ∧ _DBusDescriptorBase.name (signal_base s') = Ok (dbus_case attr)
      ∧ _descriptor_name (signal_base s') = Some attr
      ∧ _signature s' = _signature s.
Proof.
  intros Hs Hcls Hattr. unfold decorators.dbus_signal in Hs.
  destruct (signal_init_inv _ _ _ _ _ Hs) as [Hbase _].
  assert (Hname : _DBusDescriptorBase.name (signal_base s)
                  = Raise (ValueError "Name hasn't been set yet")).
  { by rewrite Hbase. }
  split; [exact Hname|]. split.
  { unfold _DBusSignal.xml. by rewrite Hname. }
  destruct (signal_set_name_ok ref s cls attr Hcls) as (cls' & Hset).
  { by rewrite Hbase. }
  do 2 eexists. split; [exact Hset|]. rewrite Hbase.
  cbn. unfold _DBusDescriptorBase.name. cbn.
  repeat split. by destruct (decide (dbus_case attr = "")).
Qed.

(** X6: [custom_dbus_signal] keeps the interface and the (converted) name
    it was given, also through the binding in a class, and builds the
    signature from the types its result is called with: the positional
    types of the first call play no part, and the signature is the one
    [dbus_signal] builds from the same types. *)
Theorem custom_signal_keeps_its_name (outer types : list PyType)
    (named_types : list (string * PyType)) (interface : option string)
    (n attr : string) (s : dbus_signal) (ref : loc) (cls : py_class) :
  decorators.custom_dbus_signal outer interface (Some n) types named_types = Ok s →
  cls_is_DBusObject cls = true →
  n ≠ "" → dbus_case n ≠ "" →
  (∀ outer', decorators.custom_dbus_signal outer' interface (Some n) types named_types
             = Ok s)
  ∧ (∃ s0, decorators.dbus_signal types named_types = Ok s0
           ∧ _signature s = _signature s0)
  ∧ _interface_orig (signal_base s) = interface
  ∧ ∃ s' cls',
      _DBusSignal.__set_name__ ref s cls attr = (s', Ok cls')
      ∧ _DBusDescriptorBase.name (signal_base s') = Ok (dbus_case n).
Proof.
  intros Hs Hcls Hn Hcase.
  unfold decorators.custom_dbus_signal, decorators.dbus_signal in *.
  destruct (signal_init_inv _ _ _ _ _ Hs) as [Hbase _].
  split; [intros _; exact Hs|]. split.
  { eexists. split; [exact (signal_init_ok _ _ _ _ None None _ Hs)|reflexivity]. }
  split; [by rewrite Hbase|].
  destruct (signal_set_name_ok ref s cls attr Hcls) as (cls' & Hset).
  { by rewrite Hbase. }
  do 2 eexists. split; [exact Hset|]. rewrite Hbase.
  cbn. destruct (decide (n = "")) as [e|_]; [by destruct Hn|]. cbn.
  destruct (decide (dbus_case n = "")) as [e|_]; [by destruct Hcase|].
  rewrite (name_of_Some _ (dbus_case n)).
  - by destruct (decide (dbus_case n = "")).
  - cbn [_name _DBusDescriptorBase.set_owner set_list_name _DBusDescriptorBase.__init__].
    by rewrite (truthy_Some n Hn).
Qed.

End signal_facts.

(** X5 on [changed = dbus_signal(int)] in the class body of [Thing]. *)
Lemma signal_named_at_binding_witness :
  ∃ s s' cls',
    @decorators.dbus_signal resolver.module [TInt] [] = Ok s
    ∧ @_DBusSignal.xml resolver.module s = Raise (ValueError "Name hasn't been set yet")
    ∧ @_DBusSignal.__set_name__ resolver.module 0 s sample.Thing "changed" = (s', Ok cls')
    ∧ _DBusDescriptorBase.name (signal_base s') = Ok "Changed".
Proof.
  eexists.
  destruct (@signal_named_at_binding resolver.module [TInt] [] _ 0 sample.Thing "changed"
              eq_refl eq_refl ltac:(discriminate))
    as (_ & Hxml & s' & cls' & Hset & Hname & _).
  exists s', cls'. split; [reflexivity|]. repeat split; assumption.
Defined.

(** X6 on [custom_dbus_signal(str, interface=..., name='value_changed')(int)]. *)
Lemma custom_signal_keeps_its_name_witness :
  ∃ s s' cls',
    @decorators.custom_dbus_signal resolver.module [TStr] (Some "org.example.Custom")
      (Some "value_changed") [TInt] [] = Ok s
    ∧ sig_types (_signature s) = [TInt]
    ∧ @_DBusSignal.__set_name__ resolver.module 0 s sample.Thing "changed" = (s', Ok cls')
    ∧ _DBusDescriptorBase.name (signal_base s') = Ok "ValueChanged".
Proof.
  eexists.
  destruct (@custom_signal_keeps_its_name resolver.module [TStr] [TInt] []
              (Some "org.example.Custom") "value_changed" "changed" _ 0 sample.Thing
              eq_refl eq_refl ltac:(discriminate) ltac:(discriminate))
    as (_ & _ & _ & s' & cls' & Hset & Hname).
  exists s', cls'. split; [reflexivity|]. split; [reflexivity|]. split; assumption.
Defined.

(** ** Introspection fragments in general *)

Section xml_facts.
Context `{signature_module}.

Lemma add_args_children (direction : option string) (ns sig : list string) (e : Element) :
  tag (add_args direction ns sig e) = tag e
  ∧ attrib (add_args direction ns sig e) = attrib e
  ∧ children (add_args direction ns sig e)
    = (children e
       ++ ((λ pair, ET_Element "arg" (arg_data direction pair) []) <$> zip_longest ns sig))%list.
Proof.
  unfold add_args. generalize (zip_longest ns sig). intros pairs. revert e.
  induction pairs as [|pair pairs IH]; intros e.
  - cbn. by rewrite app_nil_r.
  - cbn [foldl fmap list_fmap]. destruct (IH (ET_SubElement e "arg" (arg_data direction pair)))
      as (Ht & Ha & Hc).
    rewrite Ht, Ha, Hc. cbn [tag attrib children ET_SubElement].
    by rewrite <- app_assoc.
Qed.

Lemma map_result_lookup {A B} (f : A → Result B) (xs : list A) (ys : list B) :
  map_result f xs = Ok ys →
  length ys = length xs
  ∧ ∀ i y, ys !! i = Some y → ∃ x, xs !! i = Some x ∧ f x = Ok y.
Proof.
  revert ys. induction xs as [|x xs IH]; intros ys.
  - intros [= <-]. split; [done|]. intros i y Hy. by destruct i.
  - cbn [map_result]. destruct (f x) as [y0|e] eqn:Hx; [|done]. cbn [bind_result].
    destruct (map_result f xs) as [ys'|e]; [|done]. cbn [bind_result].
    intros [= <-]. destruct (IH ys' eq_refl) as [Hlen Hall]. split.
    + cbn. by rewrite Hlen.
    + intros [|i] y Hy.
      * injection Hy as <-. by exists x.
      * by apply Hall.
Qed.

Lemma zip_longest_length {A B} (xs : list A) (ys : list B) :
  xs = [] ∨ length xs = length ys →
  length (zip_longest xs ys) = length ys.
Proof.
  intros [->|Hlen]; [cbn [zip_longest]; by rewrite length_fmap|].
  revert ys Hlen. induction xs as [|x xs IH]; intros [|y ys] Hlen; try done.
  injection Hlen as Hlen. cbn [zip_longest length]. f_equal.
  destruct ys as [|y1 ys]; [by destruct xs|]. by apply IH.
Qed.

Lemma zip_longest_lookup {A B} (xs : list A) (ys : list B) (i : nat) (y : B) :
  xs = [] ∨ length xs = length ys →
  ys !! i = Some y →
  zip_longest xs ys !! i = Some (xs !! i, Some y).
Proof.
  intros [->|Hlen] Hy.
  - cbn [zip_longest]. rewrite list_lookup_fmap, Hy. by rewrite lookup_nil.
  - revert ys i Hlen Hy. induction xs as [|x xs IH]; intros [|y0 ys] i Hlen Hy; try done.
    injection Hlen as Hlen. destruct i as [|i].
    + injection Hy as <-. by destruct ys.
    + cbn in Hy. destruct ys as [|y1 ys]; [done|]. by apply (IH (y1 :: ys) i).
Qed.

(** The names of a well-formed signature pair up with its codes. *)
Lemma names_pair_up (s : DBusSignature) (codes : list string) :
  signature_wf s → signature_list s = Ok codes →
  or_empty (names s) = [] ∨ length (or_empty (names s)) = length codes.
Proof.
  unfold signature_wf, signature_list. intros Hwf Hcodes.
  apply map_result_lookup in Hcodes as [Hlen _].
  destruct (names s) as [ns|]; [|by left]. right. cbn. congruence.
Qed.

Lemma arg_data_get (direction : option string) (name code : option string) :
  assoc_get "type" (arg_data direction (name, code)) = Some code
  ∧ assoc_get "direction" (arg_data direction (name, code)) = Some <$> direction
  ∧ assoc_get "name" (arg_data direction (name, code))
    = (if truthy name then Some name else None).
Proof.
  unfold arg_data. cbn [fst snd]. destruct direction, (truthy name); repeat split.
Qed.

(** One [<arg>] of the fragment: its tag and what it carries. *)
Lemma arg_lookup (direction : option string) (ns codes : list string) (i : nat)
    (c : string) :
  ns = [] ∨ length ns = length codes →
  codes !! i = Some c →
  ∃ a, ((λ pair, ET_Element "arg" (arg_data direction pair) []) <$> zip_longest ns codes) !! i
       = Some a
       ∧ tag a = "arg"
       ∧ children a = []
       ∧ Element_get a "type" = Some (Some c)
       ∧ Element_get a "direction" = Some <$> direction
       ∧ Element_get a "name" = (if truthy (ns !! i) then Some (ns !! i) else None).
Proof.
  intros Hns Hc. pose proof (zip_longest_lookup ns codes i c Hns Hc) as Hpair.
  eexists. rewrite list_lookup_fmap, Hpair. split; [reflexivity|].
  unfold Element_get. cbn [tag children attrib].
  destruct (arg_data_get direction (ns !! i) (Some c)) as (Ht & Hd & Hn).
  by rewrite Ht, Hd, Hn.
Qed.

(** X7: the fragment of a signal is a [<signal>] element named after the
    signal with one [<arg>] per slot of the signature, in order, each with
    the type code of its slot, its name when the signature has non-empty
    names, and no [direction]. *)
Theorem signal_xml_args (self : dbus_signal) (n : string) (codes : list string) :
  _DBusDescriptorBase.name (signal_base self) = Ok n →
  signature_wf (_signature self) →
  signature_list (_signature self) = Ok codes →
  ∃ e,
    _DBusSignal.xml self = Ok e
    ∧ tag e = "signal"
    ∧ attrib e = [("name", Some n)]
    ∧ length (children e) = length (sig_types (_signature self))
    ∧ ∀ i c, codes !! i = Some c →
        ∃ a, children e !! i = Some a
             ∧ tag a = "arg"
             ∧ Element_get a "type" = Some (Some c)
             ∧ Element_get a "direction" = None
             ∧ Element_get a "name"
               = (if truthy (or_empty (names (_signature self)) !! i)
                  then Some (or_empty (names (_signature self)) !! i) else None).
Proof.
  intros Hn Hwf Hcodes. unfold _DBusSignal.xml. rewrite Hn, Hcodes. cbn [bind_result].
  pose proof (names_pair_up _ _ Hwf Hcodes) as Hns.
  destruct (add_args_children None (or_empty (names (_signature self))) codes
              (ET_Element "signal" [("name", Some n)] [])) as (Ht & Ha & Hc).
  eexists. split; [reflexivity|]. rewrite Ht, Ha, Hc. cbn [tag attrib children app].
  split; [done|]. split; [done|]. split.
  - rewrite length_fmap, (zip_longest_length _ _ Hns).
    by apply map_result_lookup in Hcodes as [Hlen _].
  - intros i c Hi. destruct (arg_lookup None _ codes i c Hns Hi)
      as (a & Ha' & Htag & _ & Hty & Hdir & Hname).
    exists a. by rewrite Ha'.
Qed.

(** X8: the fragment of a method lists one [<arg>] per input slot, in
    order and marked [direction="in"], followed by one per output slot,
    in order and marked [direction="out"]; each carries the type code of
    its slot. *)
Theorem method_xml_args (self : method_base) (n : string) (ins outs : list string) :
  _DBusDescriptorBase.name (base self) = Ok n →
  signature_wf (_input_signature self) →
  signature_wf (_output_signature self) →
  signature_list (_input_signature self) = Ok ins →
  signature_list (_output_signature self) = Ok outs →
  ∃ e,
    _DBusMethod.xml self = Ok e
    ∧ tag e = "method"
    ∧ attrib e = [("name", Some n)]
    ∧ (∀ i c, ins !! i = Some c →
         ∃ a, children e !! i = Some a
              ∧ tag a = "arg"
              ∧ Element_get a "direction" = Some (Some "in")
              ∧ Element_get a "type" = Some (Some c))
    ∧ (∀ j c, outs !! j = Some c →
         ∃ a, children e !! (length (sig_types (_input_signature self)) + j) = Some a
              ∧ tag a = "arg"
              ∧ Element_get a "direction" = Some (Some "out")
              ∧ Element_get a "type" = Some (Some c))
    ∧ length (children e)
      = length (sig_types (_input_signature self))
        + length (sig_types (_output_signature self)).
Proof.
  intros Hn Hwfi Hwfo Hins Houts. unfold _DBusMethod.xml.
  cbn [signature_bool negb orb]. rewrite Hn, Hins, Houts. cbn [bind_result]. cbv zeta.
  pose proof (names_pair_up _ _ Hwfi Hins) as Hni.
  pose proof (names_pair_up _ _ Hwfo Houts) as Hno.
  set (e0 := ET_Element "method" [("name", Some n)] []).
  set (e1 := add_args (Some "in") (or_empty (names (_input_signature self))) ins e0).
  destruct (add_args_children (Some "in") (or_empty (names (_input_signature self))) ins e0)
    as (Ht1 & Ha1 & Hc1).
  destruct (add_args_children (Some "out") (or_empty (names (_output_signature self))) outs e1)
    as (Ht2 & Ha2 & Hc2).
  fold e1 in Ht1, Ha1, Hc1.
  assert (Hlen : ∀ d ns cs, ns = [] ∨ length ns = length cs →
            length ((λ pair, ET_Element "arg" (arg_data d pair) []) <$> zip_longest ns cs)
            = length cs).
  { intros d ns cs Hns. by rewrite length_fmap, zip_longest_length. }
  pose proof (proj1 (map_result_lookup _ _ _ Hins)) as Hli.
  pose proof (proj1 (map_result_lookup _ _ _ Houts)) as Hlo.
  eexists. split; [reflexivity|]. rewrite Ht2, Ha2, Hc2, Ht1, Ha1, Hc1.
  cbn [tag attrib children e0 app].
  split; [done|]. split; [done|]. split; [|split].
  - intros i c Hi. destruct (arg_lookup (Some "in") _ ins i c Hni Hi)
      as (a & Ha' & Htag & _ & Hty & Hdir & _).
    exists a. split; [|done]. apply lookup_app_l_Some. exact Ha'.
  - intros j c Hj. destruct (arg_lookup (Some "out") _ outs j c Hno Hj)
      as (a & Ha' & Htag & _ & Hty & Hdir & _).
    exists a. split; [|done].
    rewrite lookup_app_r; rewrite (Hlen _ _ _ Hni), Hli; [|lia].
    by replace (length (sig_types (_input_signature self)) + j
                - length (sig_types (_input_signature self))) with j by lia.
  - rewrite length_app, (Hlen _ _ _ Hni), (Hlen _ _ _ Hno). lia.
Qed.

End xml_facts.

(** X7 on [renamed = dbus_signal(old=int, new=str)]. *)
Lemma signal_xml_args_witness :
  ∃ e a,
    @_DBusSignal.xml resolver.module more.renamed_signal = Ok e
    ∧ length (children e) = 2
    ∧ children e !! 1 = Some a
    ∧ Element_get a "type" = Some (Some "s")
    ∧ Element_get a "name" = Some (Some "new")
    ∧ Element_get a "direction" = None.
Proof.
  destruct (@signal_xml_args resolver.module more.renamed_signal "Renamed" ["i"; "s"]
              eq_refl eq_refl eq_refl) as (e & Hxml & _ & _ & Hlen & Hargs).
  destruct (Hargs 1 "s" eq_refl) as (a & Ha & _ & Hty & Hdir & Hname).
  exists e, a. repeat split; assumption.
Defined.

(** X8 on a method with one input and two outputs. *)
Lemma method_xml_args_witness :
  ∃ e a0 a2,
    @_DBusMethod.xml resolver.module more.lookup_method = Ok e
    ∧ length (children e) = 3
    ∧ children e !! 0 = Some a0
    ∧ Element_get a0 "direction" = Some (Some "in")
    ∧ children e !! 2 = Some a2
    ∧ Element_get a2 "direction" = Some (Some "out")
    ∧ Element_get a2 "type" = Some (Some "i").
Proof.
  destruct (@method_xml_args resolver.module more.lookup_method "Lookup" ["s"] ["b"; "i"]
              eq_refl eq_refl I eq_refl eq_refl)
    as (e & Hxml & _ & _ & Hin & Hout & Hlen).
  destruct (Hin 0 "s" eq_refl) as (a0 & Ha0 & _ & Hd0 & _).
  destruct (Hout 1 "i" eq_refl) as (a2 & Ha2 & _ & Hd2 & Ht2).
  exists e, a0, a2. repeat split; assumption.
Defined.

(** ** Attaching to a server, then emitting *)

Section attachment_facts.
Context `{signature_module}.

Lemma register_server_appends (st : State) (self : loc) (server : DBusServerBase)
    (path : string) (callback : server_emit) :
  nonempty (_dbus_signals (ob_type (objects st self))) = true →
  emit_signal_callback_attr server = Some callback →
  DBusObject.register_server self server path st
  = (Ok tt,
     set_object self
       (DBusObject.set_callbacks
          (_emit_signal_callbacks (objects st self) ++ [functools_partial callback path])
          (objects st self)) st).
Proof.
  intros Hsig Hcb. unfold DBusObject.register_server, bind, gets, modify.
  by rewrite Hsig, Hcb.
Qed.

(** X9: an object that is not attached drops what it emits (no callback,
    no error, store untouched); attached once, an emission reaches the
    server's callback once, with the path it was attached under; attached
    again, each emission reaches it once per attachment, in the order of
    the attachments. *)
Theorem emission_follows_attachments (st : State) (self s : loc)
    (server : DBusServerBase) (callback : server_emit) (p1 p2 : string)
    (args : list Val) (n : string) :
  _emit_signal_callbacks (objects st self) = [] →
  nonempty (_dbus_signals (ob_type (objects st self))) = true →
  emit_signal_callback_attr server = Some callback →
  _DBusDescriptorBase.name (signal_base (signals st s)) = Ok n →
  _DBusSignal.emit_signal s (Some self) args st = (Ok tt, st)
  ∧ ∃ st1 st2 st3 st4,
      DBusObject.register_server self server p1 st = (Ok tt, st1)
      ∧ _DBusSignal.emit_signal s (Some self) args st1 = (Ok tt, st2)
      ∧ server_dict st2 = (callback (signals st s) args p1 (server_dict st)).1
      ∧ DBusObject.register_server self server p2 st2 = (Ok tt, st3)
      ∧ _DBusSignal.emit_signal s (Some self) args st3 = (Ok tt, st4)
      ∧ server_dict st4
        = (callback (signals st s) args p2
             (callback (signals st s) args p1 (server_dict st2)).1).1.
Proof.
  intros Hnone Hsig Hcb Hn. split.
  { unfold _DBusSignal.emit_signal, bind, gets. by rewrite Hnone. }
  set (o1 := DBusObject.set_callbacks
               (_emit_signal_callbacks (objects st self) ++ [functools_partial callback p1])
               (objects st self)).
  set (st1 := set_object self o1 st).
  assert (Hcbs1 : _emit_signal_callbacks (objects st1 self) = [functools_partial callback p1]).
  { unfold st1. cbn [objects set_object]. rewrite fn_lookup_insert. unfold o1.
    cbn [_emit_signal_callbacks DBusObject.set_callbacks]. by rewrite Hnone. }
  destruct (emit_loop s args n [functools_partial callback p1] st1 Hn)
    as (st2 & Hrun2 & Hd2 & _ & _ & _ & Hsig2 & Hobj2 & _).
  assert (Hsig' : nonempty (_dbus_signals (ob_type (objects st2 self))) = true).
  { rewrite Hobj2. unfold st1. cbn [objects set_object]. rewrite fn_lookup_insert. exact Hsig. }
  set (o3 := DBusObject.set_callbacks
               (_emit_signal_callbacks (objects st2 self) ++ [functools_partial callback p2])
               (objects st2 self)).
  set (st3 := set_object self o3 st2).
  assert (Hcbs3 : _emit_signal_callbacks (objects st3 self)
                  = [functools_partial callback p1; functools_partial callback p2]).
  { unfold st3. cbn [objects set_object]. rewrite fn_lookup_insert. unfold o3.
    cbn [_emit_signal_callbacks DBusObject.set_callbacks]. by rewrite Hobj2, Hcbs1. }
  assert (Hn3 : _DBusDescriptorBase.name (signal_base (signals st3 s)) = Ok n).
  { unfold st3. cbn [signals set_object]. by rewrite Hsig2. }
  destruct (emit_loop s args n [functools_partial callback p1; functools_partial callback p2]
              st3 Hn3) as (st4 & Hrun4 & Hd4 & _).
  exists st1, st2, st3, st4.
  split; [exact (register_server_appends st self server p1 callback Hsig Hcb)|]. split.
  { unfold _DBusSignal.emit_signal. unfold bind at 1, gets at 1. rewrite Hcbs1. exact Hrun2. }
  split.
  { rewrite Hd2. cbn [deliver server_dict st1 set_object signals]. unfold functools_partial.
    by destruct (callback _ _ _ _). }
  split; [exact (register_server_appends st2 self server p2 callback Hsig' Hcb)|]. split.
  { unfold _DBusSignal.emit_signal. unfold bind at 1, gets at 1. rewrite Hcbs3. exact Hrun4. }
  rewrite Hd4. cbn [deliver server_dict st3 set_object signals]. rewrite Hsig2.
  cbn [signals st1 set_object]. unfold functools_partial.
  destruct (callback (signals st s) args p1 (server_dict st2)) as [d1 r1].
  cbn [fst]. by destruct (callback (signals st s) args p2 d1).
Qed.

End attachment_facts.

(** X9 on the sample instance and the sample server, which stores the
    body under the path. *)
Lemma emission_follows_attachments_witness :
  _DBusSignal.emit_signal 0 (Some 0) [VInt 5] sample.state = (Ok tt, sample.state)
  ∧ ∃ st1 st2,
      DBusObject.register_server 0 sample.emitting_server "/thing" sample.state = (Ok tt, st1)
      ∧ _DBusSignal.emit_signal 0 (Some 0) [VInt 5] st1 = (Ok tt, st2)
      ∧ server_dict st2 !! "/thing" = Some (VTuple [VInt 5]).
Proof.
  destruct (emission_follows_attachments sample.state 0 0 sample.emitting_server _
              "/thing" "/again" [VInt 5] "Changed" eq_refl eq_refl eq_refl eq_refl)
    as (Hdrop & st1 & st2 & _ & _ & Hreg & Hemit & Hd & _).
  split; [exact Hdrop|]. exists st1, st2. split; [exact Hreg|]. split; [exact Hemit|].
  rewrite Hd. reflexivity.
Defined.

(** ** Enumerating methods and signals *)

Section enumeration_facts.
Context `{signature_module}.

Lemma register_interface_same_declaration (b b' : descriptor_base) (o : dbus_object) :
  _DBusDescriptorBase.register_interface b o = Ok b' → same_declaration b b'.
Proof.
  unfold _DBusDescriptorBase.register_interface.
  destruct (truthy (_interface_orig b)); [by intros [= <-]|].
  destruct (default_interface_root o) as [root|].
  - destruct (truthy (Some root)); [by intros [= <-]|].
    by destruct (_DBusDescriptorBase.name b).
  - by destruct (_DBusDescriptorBase.name b).
Qed.








End enumeration_facts.



(** ** Enumerations that stop early *)

Section early_stop_facts.
Context `{signature_module}.

Lemma register_interface_missing (b : descriptor_base) (o : dbus_object) (nm : string) :
  truthy (_interface_orig b) = false →
  truthy (default_interface_root o) = false →
  _DBusDescriptorBase.name b = Ok nm →
  _DBusDescriptorBase.register_interface b o
  = Raise (DBusObjectException ("Missing interface in DBus method: " ++ nm)).
Proof.
  intros Horig Hroot Hn. unfold _DBusDescriptorBase.register_interface.
  rewrite Horig. destruct (default_interface_root o); rewrite ?Hroot, Hn; done.
Qed.


(** X13: the enumeration of properties registers the interface of each
    property it yields: after the first [next] on an instance with a
    default interface root, the first declared property reports the
    interface synthesized for that instance. *)
Theorem get_dbus_properties_registers (st : State) (self : loc) (n : string) (d : loc)
    (rest : list (string * loc)) (root : string) :
  let o := objects st self in
  _dbus_properties (ob_type o) = Some ((n, d) :: rest) →
  truthy (_interface_orig (base (property_base (properties st d)))) = false →
  default_interface_root o = Some root → root ≠ "" →
  ∃ g st1 st2,
    DBusObject.get_dbus_properties self st = (Ok g, st1)
    ∧ DBusObject.next g st1 = (Ok (Some (getter_lambda g, setter_lambda g, d)), st2)
    ∧ _DBusDescriptorBase.interface (base (property_base (properties st2 d)))
      = Ok (root ++ "." ++ _dbus_name o)
    ∧ _setter (properties st2 d) = _setter (properties st d).
Proof.
  intros o Hlist Horig Hroot Hne.
  pose proof (register_interface_synthesizes _ _ _ Horig Hroot Hne) as Hreg.
  do 3 eexists. split; [reflexivity|]. split.
  - unfold DBusObject.next. unfold bind at 1, gets at 1.
    cbn [frames alloc_frame]. rewrite fn_lookup_insert. cbn [f_status f_self].
    unfold bind at 1, gets at 1. cbn [objects alloc_frame]. fold o. rewrite Hlist.
    cbn [nonempty or_empty]. unfold DBusObject.resume_loop. cbn [f_iter f_self].
    unfold bind at 1, modify at 1. unfold bind at 1, try_except at 1.
    unfold DBusObject.property_register_interface, bind, gets, lift, modify.
    cbn [properties objects set_frame alloc_frame]. fold o. rewrite Hreg.
    reflexivity.
  - cbn [properties set_property]. rewrite fn_lookup_insert.
    cbn [property_base base set_base _setter]. split; [|reflexivity].
    apply interface_synthesized.
Qed.

(** X14: the enumeration of properties stops for good in two cases.  For
    a type without properties the first [next] already reports the end.
    On an instance without a default interface root, a first property
    without declared interface makes [next] raise [DBusObjectException]
    with no descriptor changed, and every later [next] reports the end. *)
Theorem get_dbus_properties_stops (st : State) (self : loc) :
  let o := objects st self in
  let g := next_frame st in
  let st1 := (DBusObject.get_dbus_properties self st).2 in
  (nonempty (_dbus_properties (ob_type o)) = false →
     ∃ st2, DBusObject.next g st1 = (Ok None, st2)
            ∧ DBusObject.next g st2 = (Ok None, st2)
            ∧ properties st2 = properties st)
  ∧ (∀ n d rest nm,
       _dbus_properties (ob_type o) = Some ((n, d) :: rest) →
       truthy (_interface_orig (base (property_base (properties st d)))) = false →
       truthy (default_interface_root o) = false →
       _DBusDescriptorBase.name (base (property_base (properties st d))) = Ok nm →
       ∃ st2, DBusObject.next g st1
              = (Raise (DBusObjectException ("Missing interface in DBus method: " ++ nm)), st2)
              ∧ DBusObject.next g st2 = (Ok None, st2)
              ∧ properties st2 = properties st).
Proof.
  intros o g st1. split.
  - intros Hempty. eexists. split; [|split].
    + unfold DBusObject.next. unfold bind at 1, gets at 1.
      unfold st1, DBusObject.get_dbus_properties. cbn [snd frames alloc_frame].
      unfold g. rewrite fn_lookup_insert. cbn [f_status f_self].
      unfold bind at 1, gets at 1. cbn [objects alloc_frame]. fold o. rewrite Hempty.
      unfold bind, modify, ret. reflexivity.
    + unfold DBusObject.next. unfold bind at 1, gets at 1.
      cbn [frames set_frame]. rewrite fn_lookup_insert. reflexivity.
    + reflexivity.
  - intros n d rest nm Hlist Horig Hroot Hn.
    pose proof (register_interface_missing _ _ _ Horig Hroot Hn) as Hreg.
    eexists. split; [|split].
    + unfold DBusObject.next. unfold bind at 1, gets at 1.
      unfold st1, DBusObject.get_dbus_properties. cbn [snd frames alloc_frame].
      unfold g. rewrite fn_lookup_insert. cbn [f_status f_self].
      unfold bind at 1, gets at 1. cbn [objects alloc_frame]. fold o. rewrite Hlist.
      cbn [nonempty or_empty]. unfold DBusObject.resume_loop. cbn [f_iter f_self].
      unfold bind at 1, modify at 1. unfold bind at 1, try_except at 1.
      unfold DBusObject.property_register_interface at 1.
      unfold bind at 1, gets at 1. unfold bind at 1, gets at 1.
      unfold bind at 1, lift at 1.
      cbn [properties objects set_frame alloc_frame]. fold o. rewrite Hreg.
      unfold bind, modify, raise. reflexivity.
    + unfold DBusObject.next. unfold bind at 1, gets at 1.
      cbn [frames set_frame]. rewrite fn_lookup_insert. reflexivity.
    + reflexivity.
Qed.

(** X15: a signal read through the type rather than an instance: without
    a declared interface the read itself raises [AttributeError]; with one
    it hands back an emit callback over no owner, and calling that
    raises [AttributeError] without reaching any callback. *)
Theorem signal_through_type (st : State) (s : loc) (args : list Val) :
  (truthy (_interface_orig (signal_base (signals st s))) = false →
     signal_get s None st
     = (Raise (AttributeError "'NoneType' object has no attribute 'default_interface_root'"),
        st))
  ∧ (truthy (_interface_orig (signal_base (signals st s))) = true →
     (signal_get s None st).1 = Ok (emit_signal_closure s None)
     ∧ server_dict (signal_get s None st).2 = server_dict st
     ∧ ∀ st', _DBusSignal.emit_signal s None args st'
              = (Raise (AttributeError
                          "'NoneType' object has no attribute '_emit_signal_callbacks'"),
                 st')).
Proof.
  split.
  - intros Horig. unfold signal_get, bind, gets, lift.
    cbn [fmap option_fmap option_map]. unfold _DBusSignal.__get__. by rewrite Horig.
  - intros Horig. unfold signal_get, bind, gets, lift, modify, ret.
    cbn [fmap option_fmap option_map]. unfold _DBusSignal.__get__. rewrite Horig.
    repeat split.
Qed.

End early_stop_facts.


(** X13 on the sample instance. *)
Lemma get_dbus_properties_registers_witness :
  ∃ g st1 st2,
    DBusObject.get_dbus_properties 0 sample.state = (Ok g, st1)
    ∧ DBusObject.next g st1 = (Ok (Some (getter_lambda g, setter_lambda g, 0)), st2)
    ∧ _DBusDescriptorBase.interface (base (property_base (properties st2 0)))
      = Ok "com.example.Thing".
Proof.
  destruct (get_dbus_properties_registers sample.state 0 "first" 0 [("second", 1)]
              "com.example" eq_refl eq_refl eq_refl ltac:(discriminate))
    as (g & st1 & st2 & Hgen & Hnext & Hiface & _).
  exists g, st1, st2. repeat split; assumption.
Defined.

(** X14 on [plain] (no properties, at 7) and on the instance without a
    root (at 1). *)
Lemma get_dbus_properties_stops_witness :
  (∃ st2, DBusObject.next 0 (DBusObject.get_dbus_properties 7 sample.state).2 = (Ok None, st2)
          ∧ DBusObject.next 0 st2 = (Ok None, st2))
  ∧ (∃ st2, DBusObject.next 0 (DBusObject.get_dbus_properties 1 sample.state).2
            = (Raise (DBusObjectException "Missing interface in DBus method: First"), st2)
            ∧ DBusObject.next 0 st2 = (Ok None, st2)).
Proof.
  destruct (get_dbus_properties_stops sample.state 7) as [Hempty _].
  destruct (get_dbus_properties_stops sample.state 1) as [_ Hraise].
  destruct (Hempty eq_refl) as (st2 & H1 & H2 & _).
  destruct (Hraise "first" 0 [("second", 1)] "First" eq_refl eq_refl eq_refl eq_refl)
    as (st2' & H1' & H2' & _).
  split; [exists st2|exists st2']; split; assumption.
Defined.

(** X15 on the sample signal (no interface) and on a signal declared with
    one. *)
Lemma signal_through_type_witness :
  signal_get 0 None sample.state
  = (Raise (AttributeError "'NoneType' object has no attribute 'default_interface_root'"),
     sample.state)
  ∧ (signal_get 1 None more.declared_state).1 = Ok (emit_signal_closure 1 None)
  ∧ (_DBusSignal.emit_signal 1 None [VInt 5] more.declared_state).1
    = Raise (AttributeError "'NoneType' object has no attribute '_emit_signal_callbacks'").
Proof.
  destruct (signal_through_type sample.state 0 [VInt 5]) as [Hraise _].
  destruct (signal_through_type more.declared_state 1 [VInt 5]) as [_ Hok].
  destruct (Hok eq_refl) as (Hget & _ & Hcall).
  split; [exact (Hraise eq_refl)|]. split; [exact Hget|]. by rewrite Hcall.
Defined.

(** ** Declarations are stable *)

Section preserved.
Context (R : State → State → Prop).
Hypothesis R_refl : ∀ st, R st st.
Hypothesis R_trans : ∀ st1 st2 st3, R st1 st2 → R st2 st3 → R st1 st3.

Lemma preserves_ret {A} (a : A) : preserves R (ret a).
Proof. intros st. apply R_refl. Qed.

Lemma preserves_raise {A} (e : PyExc) : preserves R (@raise A e).
Proof. intros st. apply R_refl. Qed.

Lemma preserves_lift {A} (r : Result A) : preserves R (lift r).
Proof. intros st. apply R_refl. Qed.

Lemma preserves_gets {A} (f : State → A) : preserves R (gets f).
Proof. intros st. apply R_refl. Qed.

Lemma preserves_modify (f : State → State) :
  (∀ st, R st (f st)) → preserves R (modify f).
Proof. intros Hf st. apply Hf. Qed.

Lemma preserves_bind {A B} (m : M A) (k : A → M B) :
  preserves R m → (∀ a, preserves R (k a)) → preserves R (bind m k).
Proof.
  intros Hm Hk st. unfold bind. specialize (Hm st).
  destruct (m st) as [[a|e] st1]; [|done].
  eapply R_trans; [exact Hm|apply Hk].
Qed.

Lemma preserves_try_except {A} (m : M A) (h : PyExc → M A) :
  preserves R m → (∀ e, preserves R (h e)) → preserves R (try_except m h).
Proof.
  intros Hm Hh st. unfold try_except. specialize (Hm st).
  destruct (m st) as [[a|e] st1]; [done|].
  eapply R_trans; [exact Hm|apply Hh].
Qed.

Lemma preserves_for_each {A} (xs : list A) (body : A → M unit) :
  (∀ x, preserves R (body x)) → preserves R (for_each xs body).
Proof.
  intros Hbody. induction xs as [|x xs IH]; [apply preserves_ret|].
  cbn [for_each]. apply preserves_bind; [apply Hbody|done].
Qed.

End preserved.

Section stability.
Context `{signature_module}.

Lemma same_declaration_refl (b : descriptor_base) : same_declaration b b.
Proof. by repeat split. Qed.

Lemma same_declaration_trans (b1 b2 b3 : descriptor_base) :
  same_declaration b1 b2 → same_declaration b2 b3 → same_declaration b1 b3.
Proof.
  intros (? & ? & ? & ? & ?) (? & ? & ? & ? & ?). repeat split; congruence.
Qed.

Lemma same_method_refl (m : method_base) : same_method m m.
Proof. split; [apply same_declaration_refl|by repeat split]. Qed.

Lemma same_method_trans (m1 m2 m3 : method_base) :
  same_method m1 m2 → same_method m2 m3 → same_method m1 m3.
Proof.
  intros (Hb1 & ? & ? & ? & ? & ?) (Hb2 & ? & ? & ? & ? & ?).
  split; [by eapply same_declaration_trans|]. repeat split; congruence.
Qed.

Lemma same_method_set_base (m : method_base) (b : descriptor_base) :
  same_declaration (base m) b → same_method m (set_base b m).
Proof. intros Hb. split; [exact Hb|by repeat split]. Qed.

Lemma metadata_kept_refl (st : State) : metadata_kept st st.
Proof.
  split; [|split]; intros l;
    [apply same_method_refl|apply same_method_refl|].
  split; [apply same_declaration_refl|done].
Qed.

Lemma metadata_kept_trans (st1 st2 st3 : State) :
  metadata_kept st1 st2 → metadata_kept st2 st3 → metadata_kept st1 st3.
Proof.
  intros (Hm1 & Hp1 & Hs1) (Hm2 & Hp2 & Hs2). split; [|split]; intros l.
  - by eapply same_method_trans.
  - by eapply same_method_trans.
  - destruct (Hs1 l) as [Hd1 He1], (Hs2 l) as [Hd2 He2].
    split; [by eapply same_declaration_trans|congruence].
Qed.

Lemma metadata_kept_same (st st' : State) :
  methods st' = methods st → properties st' = properties st → signals st' = signals st →
  metadata_kept st st'.
Proof. intros Hm Hp Hs. unfold metadata_kept. rewrite Hm, Hp, Hs. apply metadata_kept_refl. Qed.

Lemma metadata_kept_set_method (st : State) (m : loc) (b : descriptor_base) :
  same_declaration (base (methods st m)) b →
  metadata_kept st (set_method m (set_base b (methods st m)) st).
Proof.
  intros Hb. split; [|split]; intros l;
    [|apply same_method_refl|split; [apply same_declaration_refl|done]].
  cbn [methods set_method]. destruct (decide (m = l)) as [->|Hne].
  - rewrite fn_lookup_insert. by apply same_method_set_base.
  - rewrite fn_lookup_insert_ne by done. apply same_method_refl.
Qed.

Lemma metadata_kept_set_property (st : State) (p : loc) (b : descriptor_base)
    (setter : option PyFunction) :
  same_declaration (base (property_base (properties st p))) b →
  metadata_kept st
    (set_property p {| property_base := set_base b (property_base (properties st p));
                       _setter := setter |} st).
Proof.
  intros Hb. split; [|split]; intros l;
    [apply same_method_refl| |split; [apply same_declaration_refl|done]].
  cbn [properties set_property]. destruct (decide (p = l)) as [->|Hne].
  - rewrite fn_lookup_insert. by apply same_method_set_base.
  - rewrite fn_lookup_insert_ne by done. apply same_method_refl.
Qed.

Lemma metadata_kept_set_signal (st : State) (s : loc) (b : descriptor_base) :
  same_declaration (signal_base (signals st s)) b →
  metadata_kept st (set_signal s (_DBusSignal.set_signal_base b (signals st s)) st).
Proof.
  intros Hb. split; [|split]; intros l; [apply same_method_refl|apply same_method_refl|].
  cbn [signals set_signal]. destruct (decide (s = l)) as [->|Hne].
  - rewrite fn_lookup_insert. by split.
  - rewrite fn_lookup_insert_ne by done. split; [apply same_declaration_refl|done].
Qed.

#[local] Abbreviation stable := (preserves metadata_kept).

Lemma stable_write_back (obj : option loc) (o : option dbus_object) :
  stable (write_back obj o).
Proof.
  destruct obj, o; try (intros st; apply metadata_kept_refl).
  intros st. by apply metadata_kept_same.
Qed.

Ltac stable_step :=
  lazy zeta;
  lazymatch goal with
  | |- preserves _ (bind _ _) =>
      apply (preserves_bind _ metadata_kept_trans); [|intros ?]
  | |- preserves _ (try_except _ _) =>
      apply (preserves_try_except _ metadata_kept_trans); [|intros ?]
  | |- preserves _ (for_each _ _) =>
      apply (preserves_for_each _ metadata_kept_refl metadata_kept_trans); intros ?
  | |- preserves _ (modify _) =>
      apply preserves_modify; intros ?; apply metadata_kept_same; reflexivity
  | |- preserves _ (write_back _ _) => apply stable_write_back
  | |- preserves _ _ => intros ?; apply metadata_kept_refl
  end.

Lemma stable_method_get (m : loc) (obj : option loc) : stable (method_get m obj).
Proof.
  intros st. unfold method_get, bind, gets, lift, modify, ret.
  unfold _DBusMethodBase.__get__. destruct obj as [ref|]; cbn [fmap option_fmap option_map].
  - destruct (_DBusDescriptorBase.register_interface _ _) as [b|e] eqn:Hreg;
      cbn [bind_result fst snd]; [|apply metadata_kept_refl].
    apply metadata_kept_set_method. by eapply register_interface_same_declaration.
  - cbn [fst snd]. split; [|split]; intros l;
      [|apply same_method_refl|split; [apply same_declaration_refl|done]].
    cbn [methods set_method]. destruct (decide (m = l)) as [->|Hne].
    + rewrite fn_lookup_insert. apply same_method_refl.
    + rewrite fn_lookup_insert_ne by done. apply same_method_refl.
Qed.

Lemma stable_signal_get (s : loc) (obj : option loc) : stable (signal_get s obj).
Proof.
  intros st. unfold signal_get, bind, gets, lift, modify, ret.
  unfold _DBusSignal.__get__. destruct obj as [ref|]; cbn [fmap option_fmap option_map].
  - destruct (_DBusDescriptorBase.register_interface _ _) as [b|e] eqn:Hreg;
      cbn [bind_result fst snd]; [|apply metadata_kept_refl].
    apply metadata_kept_set_signal. by eapply register_interface_same_declaration.
  - destruct (truthy _); cbn [fst snd]; [|apply metadata_kept_refl].
    split; [|split]; intros l; [apply same_method_refl|apply same_method_refl|].
    cbn [signals set_signal]. destruct (decide (s = l)) as [->|Hne].
    + rewrite fn_lookup_insert. split; [apply same_declaration_refl|done].
    + rewrite fn_lookup_insert_ne by done. split; [apply same_declaration_refl|done].
Qed.

Lemma stable_property_get (p : loc) (obj : option loc) : stable (property_get p obj).
Proof. unfold property_get. repeat stable_step. Qed.

Lemma stable_property_set (p obj : loc) (value : Val) : stable (property_set p obj value).
Proof. unfold property_set. repeat stable_step. Qed.

Lemma stable_property_setter (p : loc) (value : PyFunction) :
  stable (property_setter p value).
Proof.
  intros st. unfold property_setter, bind, gets, modify, ret. cbn [snd].
  split; [|split]; intros l;
    [apply same_method_refl| |split; [apply same_declaration_refl|done]].
  cbn [properties set_property]. destruct (decide (p = l)) as [->|Hne].
  - rewrite fn_lookup_insert. apply same_method_refl.
  - rewrite fn_lookup_insert_ne by done. apply same_method_refl.
Qed.

Lemma stable_property_register_interface (p obj : loc) :
  stable (DBusObject.property_register_interface p obj).
Proof.
  intros st. unfold DBusObject.property_register_interface, bind, gets, lift, modify.
  destruct (_DBusDescriptorBase.register_interface _ _) as [b|e] eqn:Hreg;
    cbn [snd]; [|apply metadata_kept_refl].
  apply metadata_kept_set_property. by eapply register_interface_same_declaration.
Qed.

Lemma stable_getattr (obj : loc) (name : string) : stable (getattr obj name).
Proof.
  unfold getattr. stable_step; [stable_step|].
  destruct (cls_dict (ob_type a) !! name) as [[m|p|s]|];
    try destruct (ob_dict a !! name);
    first [apply stable_property_get|apply stable_method_get|apply stable_signal_get
          |stable_step].
Qed.

Lemma stable_setattr (obj : loc) (name : string) (value : Val) :
  stable (setattr obj name value).
Proof.
  unfold setattr. stable_step; [stable_step|].
  destruct (cls_dict (ob_type a) !! name) as [[m|p|s]|];
    first [apply stable_property_set|stable_step].
Qed.

Lemma stable_resume_loop (g : loc) (fr : properties_frame) :
  stable (DBusObject.resume_loop g fr).
Proof.
  unfold DBusObject.resume_loop. destruct (f_iter fr) as [|[n d] rest].
  - repeat stable_step.
  - stable_step; [stable_step|]. stable_step; [|stable_step].
    stable_step; [apply stable_property_register_interface|]. repeat stable_step.
Qed.

Lemma stable_next (g : loc) : stable (DBusObject.next g).
Proof.
  unfold DBusObject.next. stable_step; [stable_step|].
  destruct (f_status a); [|apply stable_resume_loop|stable_step].
  stable_step; [stable_step|].
  destruct (nonempty _); [apply stable_resume_loop|repeat stable_step].
Qed.

Lemma stable_emit_signal (s : loc) (owner : option loc) (args : list Val) :
  stable (_DBusSignal.emit_signal s owner args).
Proof.
  unfold _DBusSignal.emit_signal. destruct owner as [o|]; [|stable_step].
  stable_step; [stable_step|]. stable_step. stable_step.
  - intros st. unfold _DBusSignal.call_callback.
    destruct (x _ _ _) as [d r]. by apply metadata_kept_same.
  - repeat stable_step.
Qed.

Lemma stable_register_server (self : loc) (server : DBusServerBase) (path : string) :
  stable (DBusObject.register_server self server path).
Proof.
  unfold DBusObject.register_server. stable_step; [stable_step|].
  destruct (negb _); [stable_step|].
  destruct (emit_signal_callback_attr server); repeat stable_step.
Qed.

Lemma perform_stable (c : api_call) (st : State) : metadata_kept st (perform c st).
Proof.
  destruct c; cbn [perform].
  - apply stable_method_get.
  - apply stable_signal_get.
  - apply stable_property_get.
  - apply stable_property_set.
  - apply stable_property_setter.
  - apply stable_getattr.
  - apply stable_setattr.
  - by apply metadata_kept_same.
  - apply stable_next.
  - unfold DBusObject.call_getter_lambda. apply (preserves_bind _ metadata_kept_trans).
    + stable_step.
    + intros fr. destruct (property_name fr); [apply stable_getattr|stable_step].
  - unfold DBusObject.call_setter_lambda. apply (preserves_bind _ metadata_kept_trans).
    + stable_step.
    + intros fr. destruct (property_name fr); [apply stable_setattr|stable_step].
  - apply stable_register_server.
  - apply stable_emit_signal.
Qed.

(** X16: once declared, a member's metadata is fixed: whatever sequence of
    reads, writes, enumerations, attachments and emissions follows, every
    descriptor keeps its declared interface, its name, its function and
    its signatures; only the cached interface and a property's setter ever
    change. *)
Theorem declarations_are_stable (calls : list api_call) (st : State) :
  metadata_kept st (perform_all calls st).
Proof.
  revert st. induction calls as [|c calls IH]; intros st; [apply metadata_kept_refl|].
  cbn [perform_all foldl]. eapply metadata_kept_trans; [apply perform_stable|apply IH].
Qed.

End stability.
